(** * herbpy: guarded motion primitives of the WAM arm and the BarrettHand

    A shallow embedding of [herbpy/wam.py] ([Servo], [ServoTo],
    [MoveUntilTouch]) and of [herbpy/barretthand.py] ([MoveHand],
    [GetForceTorque]), with the statements of the guarded-motion
    specification settled against it; then further properties of these
    files and of [herbpy/herb.py] and [herbpy/herbrobot.py].

    Conventions of the embedding.
    - A Python float is a rational ([Q]), and the arithmetic the sources
      and numpy do on floats is IEEE 754 double arithmetic: the exact
      result rounded by [binary64] (to nearest, ties to even, with
      subnormals).  Quantities beyond the largest double have no
      counterpart: the exponent is not bounded above.  Where the sources
      divide Python numbers, ints and floats are told apart ([python.div]
      is Python 2's division).
    - A method that mutates the OpenRAVE scene, talks to a controller or
      logs is a computation in the monad [M]: it reads and writes the
      [Scene], may raise a Python exception, and emits the calls it makes
      to its collaborators as a chronological list of [Event]s.
    - The planner, the retimer, the collision checkers and the robot that
      executes a trajectory belong to the external framework; they are the
      fields of a [Framework] record. *)

From Stdlib Require Import QArith Qround ZArith List String Lia Bool.
From stdpp Require Import base list strings gmap.
Import ListNotations.

Open Scope Q_scope.

(** ** Python exceptions and results *)

Inductive exn : Type :=
| ValueError (msg : string)
| NotImplementedError (msg : string)
| IndexError (msg : string)
| ZeroDivisionError (msg : string)
| IOError (msg : string)
| Exception (msg : string)
| openrave_exception (msg : string)
| PlanningError (msg : string)
| TrajectoryAborted.

Inductive result (A : Type) : Type :=
| Return (a : A)
| Raise (e : exn).
Arguments Return {A} a.
Arguments Raise {A} e.

(** ** IEEE 754 doubles *)

(** [a / b] rounded to the nearest integer, ties to the even one
    ([b > 0]). *)
Definition round_half_even (a b : Z) : Z :=
  let f := (a / b)%Z in
  match (2 * (a mod b) ?= b)%Z with
  | Lt => f
  | Gt => (f + 1)%Z
  | Eq => if Z.even f then f else (f + 1)%Z
  end.

(** The fraction [n / d] divided by [2 ^ e], as numerator and denominator. *)
Definition scaled (n d e : Z) : Z * Z :=
  if (0 <=? e)%Z then (n, d * 2 ^ e)%Z else (n * 2 ^ (- e), d)%Z.

(** [floor (log2 (n / d))]: the difference of the two bit lengths, or one
    less. *)
Definition ilogb (n d : positive) : Z :=
  let e0 := (Z.log2 (Zpos n) - Z.log2 (Zpos d))%Z in
  let '(a, b) := scaled (Zpos n) (Zpos d) e0 in
  if (b <=? a)%Z then e0 else (e0 - 1)%Z.

(** The exponent of the unit in the last place: 53 significant bits, and
    never below the subnormal spacing [2 ^ -1074]. *)
Definition exponent (n d : positive) : Z := Z.max (ilogb n d - 52) (-1074).

Definition binary64_pos (n d : positive) : Q :=
  let e := exponent n d in
  let '(a, b) := scaled (Zpos n) (Zpos d) e in
  let m := round_half_even a b in
  Qred (if (0 <=? e)%Z then inject_Z (m * 2 ^ e) else m # Z.to_pos (2 ^ (- e))).

(** The double nearest to [q], ties to even, in lowest terms. *)
Definition binary64 (q : Q) : Q :=
  match Qnum (Qred q) with
  | Z0 => 0
  | Zpos n => binary64_pos n (Qden (Qred q))
  | Zneg n => - binary64_pos n (Qden (Qred q))
  end.


(** ** Python numbers *)

Module python.

Inductive number : Type :=
| int (n : Z)
| float (x : Q).

(** [float(a)]. *)
Definition to_float (a : number) : Q :=
  match a with
  | int n => binary64 (inject_Z n)
  | float x => x
  end.

(** [a / b] in Python 2: floor division on two ints, float division as
    soon as one operand is a float; a zero divisor raises. *)
Definition div (a b : number) : result number :=
  match a, b with
  | int n, int m =>
      if (m =? 0)%Z
      then Raise (ZeroDivisionError "integer division or modulo by zero")
      else Return (int (n / m))
  | _, _ =>
      if Qeq_bool (to_float b) 0
      then Raise (ZeroDivisionError "float division by zero")
      else Return (float (binary64 (to_float a / to_float b)))
  end.

(** [math.ceil(a)], a float. *)
Definition math_ceil (a : number) : number :=
  float (inject_Z (Qceiling (to_float a))).

(** [int(a)] truncates towards zero. *)
Definition int_ (a : number) : Z :=
  match a with
  | int n => n
  | float x => if Qle_bool 0 x then Qfloor x else Qceiling x
  end.

End python.

(** ** numpy *)

Module numpy.

(** [numpy.arange(start, stop, step)] on doubles.  The length is the
    ceiling of the double quotient [(stop - start) / step]; the interval is
    half open.  The first two entries are [start] and [start + step], and
    entry [i] is [start + i * delta] for the double difference [delta] of the
    two.  The sources call it with the step 0.01 only. *)
Definition arange (start stop step : Q) : list Q :=
  let length := Z.to_nat (Qceiling (binary64 (binary64 (stop - start) / step))) in
  let next := binary64 (start + step) in
  let delta := binary64 (next - start) in
  map (fun i : nat =>
         match i with
         | O => start
         | S O => next
         | _ => binary64 (start + binary64 (inject_Z (Z.of_nat i) * delta))
         end)
      (seq 0 length).

(** [a - b] on one-dimensional arrays of doubles.  Shapes [(n,)] and [(m,)]
    broadcast when they agree or when one of them is 1; anything else is
    numpy's [ValueError]. *)
Definition subtract (a b : list Q) : result (list Q) :=
  match a, b with
  | [x], _ => Return (map (fun y => binary64 (x - y)) b)
  | _, [y] => Return (map (fun x => binary64 (x - y)) a)
  | _, _ =>
      if Nat.eqb (length a) (length b)
      then Return (zip_with (fun x y => binary64 (x - y)) a b)
      else Raise (ValueError "operands could not be broadcast together")
  end.

Definition zeros (n : nat) : list Q := repeat 0 n.

End numpy.

(** ** OpenRAVE: trajectories *)

(** A trajectory point in the configuration specification the arm plans
    in: the joint values of the arm's degrees of freedom and the time
    elapsed since the previous point (the [deltatime] group). *)
Record Waypoint : Type := mkWaypoint {
  deltatime : Q;
  joint_values : list Q
}.

Definition Trajectory : Type := list Waypoint.

Definition GetNumWaypoints (traj : Trajectory) : nat := length traj.

(** [traj.GetDuration()]: the sum of the delta times. *)
Definition GetDuration (traj : Trajectory) : Q :=
  fold_right (fun w acc => deltatime w + acc) 0 traj.

(** [cspec.InsertDeltaTime(waypoint, dt)] overwrites the delta time. *)
Definition InsertDeltaTime (waypoint : Waypoint) (dt : Q) : Waypoint :=
  {| deltatime := dt; joint_values := joint_values waypoint |}.

(** [traj.Insert(index, waypoint)]; the source only ever inserts at
    [index = GetNumWaypoints()], the end. *)
Definition Insert (traj : Trajectory) (index : nat) (waypoint : Waypoint)
  : Trajectory :=
  take index traj ++ waypoint :: drop index traj.

(** [robot_cspec.ExtractJointValues(waypoint, robot, dof_indices, 0)]: the
    trajectory is planned with the arm active, so the joint-value group of
    a waypoint is exactly the values of [dof_indices], in order. *)
Definition ExtractJointValues (waypoint : Waypoint) : list Q :=
  joint_values waypoint.

Definition lerp (f a b : Q) : Q := a + f * (b - a).

(** The point [dt] after [prev] on the segment from [prev] to [next]. *)
Definition interpolate (prev next : Waypoint) (dt : Q) : Waypoint :=
  {| deltatime := dt;
     joint_values :=
       zip_with (lerp (dt / deltatime next))
                (joint_values prev) (joint_values next) |}.

(** Walk the segments that follow [prev]; [dt] is the time left after
    [prev].  Past the last waypoint the trajectory holds its end. *)
Fixpoint sample_after (prev : Waypoint) (rest : list Waypoint) (dt : Q)
  : Waypoint :=
  match rest with
  | [] => prev
  | next :: rest' =>
      if Qle_bool dt (deltatime next)
      then interpolate prev next dt
      else sample_after next rest' (dt - deltatime next)
  end.

(** Modelled from the spec: [traj.Sample(t)] is OpenRAVE's and not part of
    the sources; section 4.3 gives the sampler as linear interpolation
    between the two waypoints that bracket [t] by time stamp.  At or before
    the first time stamp the sample is the first waypoint itself, past the
    last one it is the last waypoint.  An empty trajectory and a negative
    time throw. *)
Definition Sample (traj : Trajectory) (t : Q) : result Waypoint :=
  match traj with
  | [] => Raise (openrave_exception "trajectory needs at least one point to sample from")
  | first :: rest =>
      if Qle_bool 0 t
      then Return (if Qle_bool t (deltatime first)
                   then first
                   else sample_after first rest (t - deltatime first))
      else Raise (openrave_exception "invalid arguments time < 0")
  end.

(** ** OpenRAVE: the scene *)

(** What the methods below read and write: the robot's joint values (they
    determine every link transformation), its active degrees of freedom
    and active manipulator, the bodies whose collision geometry is
    disabled, and the latest wrench on the hand's force/torque topic. *)
Record Scene : Type := mkScene {
  DOFValues : list Q;
  ActiveDOFIndices : list nat;
  ActiveManipulator : string;
  DisabledBodies : gset string;
  ft_wrench : list Q * list Q
}.

(** [KinBody.SaveParameters], a bit mask. *)
Module SaveParameters.
Definition LinkTransformation : N := 0x1.
Definition LinkEnable : N := 0x2.
Definition ActiveDOF : N := 0x10000.
Definition ActiveManipulator : N := 0x20000.
End SaveParameters.

Record RobotStateSaver : Type := mkRobotStateSaver {
  saved : Scene;
  options : N
}.

(** Leaving the [with] block of a robot state saver puts back the parts of
    the robot selected by its options. *)
Definition Restore (saver : RobotStateSaver) (s : Scene) : Scene :=
  let keeps (flag : N) : bool := negb (N.eqb (N.land (options saver) flag) 0) in
  {| DOFValues :=
       if keeps SaveParameters.LinkTransformation
       then DOFValues (saved saver) else DOFValues s;
     ActiveDOFIndices :=
       if keeps SaveParameters.ActiveDOF
       then ActiveDOFIndices (saved saver) else ActiveDOFIndices s;
     ActiveManipulator :=
       if keeps SaveParameters.ActiveManipulator
       then ActiveManipulator (saved saver) else ActiveManipulator s;
     DisabledBodies := DisabledBodies s;
     ft_wrench := ft_wrench s |}.

(** [body.CreateKinBodyStateSaver()] remembers whether the body was
    enabled; [body.Enable(flag)] switches its collision geometry. *)
Record KinBodyStateSaver : Type := mkKinBodyStateSaver {
  body : string;
  was_disabled : bool
}.

Definition Enable (name : string) (flag : bool) (s : Scene) : Scene :=
  {| DOFValues := DOFValues s;
     ActiveDOFIndices := ActiveDOFIndices s;
     ActiveManipulator := ActiveManipulator s;
     DisabledBodies :=
       if flag then DisabledBodies s ∖ {[ name ]}
       else {[ name ]} ∪ DisabledBodies s;
     ft_wrench := ft_wrench s |}.

Definition RestoreBody (saver : KinBodyStateSaver) (s : Scene) : Scene :=
  Enable (body saver) (negb (was_disabled saver)) s.

(** [robot.SetDOFValues(values, indices)] on the list of all joint values;
    OpenRAVE throws when the two lengths differ or an index is not a joint
    of the robot. *)
Fixpoint set_dofs (indices : list nat) (values dofs : list Q)
  : option (list Q) :=
  match indices, values with
  | [], [] => Some dofs
  | i :: indices', v :: values' =>
      if Nat.ltb i (length dofs)
      then set_dofs indices' values' (<[ i := v ]> dofs)
      else None
  | _, _ => None
  end.

(** [robot.GetDOFValues(indices)]. *)
Fixpoint get_dofs (indices : list nat) (dofs : list Q) : option (list Q) :=
  match indices with
  | [] => Some []
  | i :: indices' =>
      match dofs !! i, get_dofs indices' dofs with
      | Some v, Some vs => Some (v :: vs)
      | _, _ => None
      end
  end.

(** ** Calls to collaborators *)

Inductive Event : Type :=
| warnings_warn (msg : string)
| logger_info (fmt : string)
| robot_SetDOFValues (values : list Q) (indices : list nat)
| robot_ExecuteTrajectory (traj : Trajectory)
| servo_simulator_SetVelocity (velocities : list Q)
| time_sleep (seconds : Q)
| controller_SetDesired (preshape : list Q)
| util_WaitForControllers (timeout : option Q).

(** The external framework: planner, retimer and collision checkers, and
    the robot's [ExecuteTrajectory], the method of whatever robot the arm is
    attached to.  A checker reads the whole scene (joint values and enabled
    bodies); an execution may move the robot and may raise. *)
Record Framework : Type := mkFramework {
  PlanToEndEffectorOffset :
    Scene -> list Q -> Q -> Q -> result Trajectory;
  PostProcessPath : Trajectory -> Trajectory;
  CheckCollision : Scene -> bool;
  CheckSelfCollision : Scene -> bool;
  CollisionCheck : Scene -> list Q -> bool;
  ExecuteTrajectory : Trajectory -> Scene -> result unit * Scene
}.

(** ** The monad of scene-mutating, exception-raising, event-emitting code *)

Definition M (A : Type) : Type := Scene -> result A * Scene * list Event.

Definition ret {A : Type} (a : A) : M A := fun s => (Return a, s, []).

Definition raise {A : Type} (e : exn) : M A := fun s => (Raise e, s, []).

Definition bind {A B : Type} (m : M A) (k : A -> M B) : M B :=
  fun s =>
    match m s with
    | (Return a, s', ev) =>
        match k a s' with
        | (r, s'', ev') => (r, s'', ev ++ ev')
        end
    | (Raise e, s', ev) => (Raise e, s', ev)
    end.

(** stdpp's monad notations: [x ← m; k] and [m ;; k]. *)
#[global] Instance M_ret : MRet M := @ret.
#[global] Instance M_bind : MBind M := fun A B k m => bind m k.

Definition emit (e : Event) : M unit := fun s => (Return tt, s, [e]).

Definition get : M Scene := fun s => (Return s, s, []).

Definition modify (f : Scene -> Scene) : M unit := fun s => (Return tt, f s, []).

Definition lift {A : Type} (r : result A) : M A := fun s => (r, s, []).

(** [with saver: body]: the exit action runs however the body ends. *)
Definition with_ {A : Type} (exit : Scene -> Scene) (body : M A) : M A :=
  fun s => match body s with (r, s', ev) => (r, exit s', ev) end.

Definition CreateRobotStateSaver (opts : N) : M RobotStateSaver :=
  fun s => (Return {| saved := s; options := opts |}, s, []).

Definition CreateKinBodyStateSaver (name : string) : M KinBodyStateSaver :=
  fun s => (Return {| body := name;
                      was_disabled := bool_decide (name ∈ DisabledBodies s) |},
            s, []).

(** [contextlib.nested] over the body savers: the exits run in reverse
    order of entry. *)
Definition nested (savers : list KinBodyStateSaver) (s : Scene) : Scene :=
  fold_right RestoreBody s savers.

Definition robot_SetDOFValues_m (values : list Q) (indices : list nat) : M unit :=
  fun s =>
    match set_dofs indices values (DOFValues s) with
    | Some dofs =>
        (Return tt,
         {| DOFValues := dofs;
            ActiveDOFIndices := ActiveDOFIndices s;
            ActiveManipulator := ActiveManipulator s;
            DisabledBodies := DisabledBodies s;
            ft_wrench := ft_wrench s |},
         [robot_SetDOFValues values indices])
    | None => (Raise (openrave_exception "invalid dof values"), s, [])
    end.

Definition robot_GetDOFValues (indices : list nat) : M (list Q) :=
  fun s =>
    match get_dofs indices (DOFValues s) with
    | Some vs => (Return vs, s, [])
    | None => (Raise (openrave_exception "invalid dof index"), s, [])
    end.

(** A method of an external collaborator that works on the scene. *)
Definition external {A : Type} (f : Scene -> result A * Scene) : M A :=
  fun s => match f s with (r, s') => (r, s', []) end.

(** [robot.ExecuteTrajectory(traj)]: the call is recorded, then the robot's
    method runs. *)
Definition robot_ExecuteTrajectory_m (fw : Framework) (traj : Trajectory)
  : M unit :=
  emit (robot_ExecuteTrajectory traj) ;; external (ExecuteTrajectory fw traj).

(** [time.sleep(seconds)]; a negative length is an [IOError] (Python 2 on
    POSIX). *)
Definition time_sleep_m (seconds : Q) : M unit :=
  if Qle_bool 0 seconds
  then emit (time_sleep seconds)
  else raise (IOError "[Errno 22] Invalid argument").

(** A Python [for] loop over a list, without [break]. *)
Fixpoint for_each {A : Type} (xs : list A) (body : A -> M unit) : M unit :=
  match xs with
  | [] => ret tt
  | x :: xs' => body x ;; for_each xs' body
  end.

(** [range(lo, hi)] on Python ints. *)
Definition range (lo hi : Z) : list Z :=
  map (fun i : nat => (lo + Z.of_nat i)%Z) (seq 0 (Z.to_nat (hi - lo))).

(** [seq[i]] on a Python sequence. *)
Definition getitem (xs : list Q) (i : nat) : M Q :=
  match xs !! i with
  | Some x => mret x
  | None => raise (IndexError "index out of bounds")
  end.

(** ** herbpy/wam.py *)

Module WAM.

Record WAM : Type := mkWAM {
  simulated : bool;
  namespace : string;
  arm_indices : list nat
}.

Definition GetArmIndices (self : WAM) : list nat := arm_indices self.

Definition IsSimulated (self : WAM) : bool := simulated self.

(** [manipulator.SetActive()]: the arm becomes the active manipulator and
    its joints the active degrees of freedom. *)
Definition SetActive (self : WAM) : M unit :=
  modify (fun s =>
    {| DOFValues := DOFValues s;
       ActiveDOFIndices := GetArmIndices self;
       ActiveManipulator := namespace self;
       DisabledBodies := DisabledBodies s;
       ft_wrench := ft_wrench s |}).

(** [manipulator.SetDOFValues(values)] sets the arm's joints. *)
Definition SetDOFValues (self : WAM) (values : list Q) : M unit :=
  robot_SetDOFValues_m values (GetArmIndices self).

(** [Servo(self, velocities)]: the length check comes first, then the
    mode check, then the simulated servo loop gets the velocities. *)
Definition Servo (self : WAM) (velocities : list Q) : M unit :=
  let num_dof := length (GetArmIndices self) in
  if negb (Nat.eqb (length velocities) num_dof)
  then raise (ValueError
         "Incorrect number of joint velocities. Expected {0:d}; got {0:d}.")
  else if negb (simulated self)
  then raise (NotImplementedError
         "Servoing and velocity control not yetsupported under ros_control.")
  else emit (servo_simulator_SetVelocity velocities).

(** [ServoTo(self, target, duration, timeStep, collisionChecking)].
    [duration / timeStep] is Python 2's division.  The quotient [v / steps]
    is numpy's, a double, and does not raise when [steps] is 0; the
    velocities are then never sent. *)
Definition ServoTo (fw : Framework) (self : WAM) (target : list Q)
    (duration timeStep : python.number) (collisionChecking : bool) : M bool :=
  quotient ← lift (python.div duration timeStep);
  let steps := python.int_ (python.math_ceil quotient) in
  original_dofs ← robot_GetDOFValues (GetArmIndices self);
  current ← robot_GetDOFValues (GetArmIndices self);
  velocity ← lift (numpy.subtract target current);
  let velocities :=
    map (fun v => binary64 (v / python.to_float (python.int steps))) velocity in
  s ← get;
  let inCollision :=
    if collisionChecking then CollisionCheck fw s target else false in
  if negb inCollision
  then
    for_each (range 1 steps)
      (fun i => Servo self velocities ;;
                time_sleep_m (python.to_float timeStep)) ;;
    Servo self (map (fun _ => 0) (GetArmIndices self)) ;;
    mret true
  else mret false.

(** The forward-simulation loop of [MoveUntilTouch]: one iteration per
    time of [numpy.arange(0, traj.GetDuration(), delta_t)], with the
    output trajectory [new_traj] built so far.  Returns [is_collision]
    and [new_traj]. *)
Fixpoint simulate (fw : Framework) (manipulator : WAM) (traj : Trajectory)
    (delta_t : Q) (times : list Q) (new_traj : Trajectory)
  : M (bool * Trajectory) :=
  match times with
  | [] => mret (false, new_traj)
  | t :: times' =>
      waypoint ← lift (Sample traj t);
      let dof_values := ExtractJointValues waypoint in
      SetDOFValues manipulator dof_values ;;
      s ← get;
      if CheckCollision fw s
      then emit (logger_info "Terminated from collision: %s") ;;
           mret (true, new_traj)
      else if CheckSelfCollision fw s
      then emit (logger_info "Terminated from self-collision: %s") ;;
           mret (true, new_traj)
      else
        let waypoint :=
          InsertDeltaTime waypoint
            (if Nat.eqb (GetNumWaypoints new_traj) 0 then 0 else delta_t) in
        simulate fw manipulator traj delta_t times'
                 (Insert new_traj (GetNumWaypoints new_traj) waypoint)
  end.

(** The block [with env, robot_saver: for t in numpy.arange(...)]: the
    loop runs under a saver of the link transformations. *)
Definition forward_simulation (fw : Framework) (manipulator : WAM)
    (traj : Trajectory) (delta_t : Q) : M (bool * Trajectory) :=
  robot_saver ← CreateRobotStateSaver SaveParameters.LinkTransformation;
  with_ (Restore robot_saver)
    (simulate fw manipulator traj delta_t
       (numpy.arange 0 (GetDuration traj) delta_t) []).

(** The planning block: bodies of [ignore_collisions] are disabled and the
    arm is active only while the planner runs. *)
Definition plan (fw : Framework) (manipulator : WAM) (direction : list Q)
    (distance max_distance : Q) (ignore_collisions : list string)
  : M Trajectory :=
  body_savers ← mapM CreateKinBodyStateSaver ignore_collisions;
  robot_saver ← CreateRobotStateSaver
    (N.lor (N.lor SaveParameters.ActiveDOF SaveParameters.ActiveManipulator)
           SaveParameters.LinkTransformation);
  with_ (fun s => Restore robot_saver (nested body_savers s))
    (SetActive manipulator ;;
     for_each ignore_collisions (fun body => modify (Enable body false)) ;;
     s ← get;
     lift (PlanToEndEffectorOffset fw s direction distance max_distance)).

(** [MoveUntilTouch] with the control period as a parameter; the source's
    function is the instance at [delta_t] below.  Left out: the expected
    force direction in the hand frame, which is computed and never used, and
    the arguments [velocity_limit_scale] (unused) and [**kw_args] (handed
    to the planner, here part of [PlanToEndEffectorOffset]).  [max_force]
    and [max_torque] are received and, in simulation, never consulted.
    The warning text is the source's without its inner quotation marks. *)
Definition MoveUntilTouch_dt (delta_t : Q) (fw : Framework)
    (manipulator : WAM) (direction : list Q) (distance : Q)
    (max_distance : option Q) (max_force : Q) (max_torque : option (list Q))
    (ignore_collisions : option (list string)) : M bool :=
  max_distance ←
    match max_distance with
    | None =>
        emit (warnings_warn
          "MoveUntilTouch now requires the max_distance argument. This will be an error in the future.") ;;
        mret 1
    | Some d => mret d
    end;
  let max_torque := default [100; 100; 100] max_torque in
  let ignore_collisions := default [] ignore_collisions in
  path ← plan fw manipulator direction distance max_distance ignore_collisions;
  if negb (simulated manipulator)
  then raise (NotImplementedError
         "MoveUntilTouch not yet implemented under ros_control.")
  else
    let traj := PostProcessPath fw path in
    '(is_collision, new_traj) ← forward_simulation fw manipulator traj delta_t;
    (if Nat.ltb 0 (GetNumWaypoints new_traj)
     then robot_ExecuteTrajectory_m fw new_traj
     else mret tt) ;;
    mret is_collision.

(** The source fixes the control period: [delta_t = 0.01], the double
    nearest to 1/100. *)
Definition delta_t : Q := binary64 (1 # 100).

Definition MoveUntilTouch : Framework -> WAM -> list Q -> Q -> option Q -> Q ->
    option (list Q) -> option (list string) -> M bool :=
  MoveUntilTouch_dt delta_t.

(** [GetTrajectoryStatus] and [ClearTrajectoryStatus] are not supported
    on this manipulator. *)
Definition GetTrajectoryStatus (manipulator : WAM) : M string :=
  raise (NotImplementedError
    "GetTrajectoryStatus not supported on manipulator. Use returned TrajectoryFuture instead.").

Definition ClearTrajectoryStatus (manipulator : WAM) : M unit :=
  raise (NotImplementedError
    "ClearTrajectoryStatus not supported on manipulator.").

(** [GetJointNames(self)]: the seven joint names under the arm's
    namespace. *)
Definition GetJointNames (self : WAM) : list string :=
  map (fun j => (namespace self +:+ "/") +:+ j)
      ["j1"; "j2"; "j3"; "j4"; "j5"; "j6"; "j7"].

End WAM.

(** ** herbpy/barretthand.py *)

Module BarrettHand.

(** The hand and the joint indices of [j01], [j11], [j21] (the fingers)
    and [j00] (the spread). *)
Record BarrettHand : Type := mkBarrettHand {
  simulated : bool;
  ft_simulated : bool;
  j01 : nat;
  j11 : nat;
  j21 : nat;
  j00 : nat
}.

Definition GetSpreadIndex (self : BarrettHand) : nat := j00 self.

Definition GetFingerIndices (self : BarrettHand) : list nat :=
  [j01 self; j11 self; j21 self].

Definition GetIndices (self : BarrettHand) : list nat :=
  GetFingerIndices self ++ [GetSpreadIndex self].

(** [EndEffector.GetDOFValues]: the robot's values at [GetIndices()]. *)
Definition GetDOFValues (self : BarrettHand) : M (list Q) :=
  robot_GetDOFValues (GetIndices self).

(** [x if x is not None else curr_pos[i]]: the index is evaluated only
    when the argument is [None]. *)
Definition or_current (x : option Q) (curr_pos : list Q) (i : nat) : M Q :=
  match x with
  | Some v => mret v
  | None => getitem curr_pos i
  end.

Definition MoveHand (self : BarrettHand) (f1 f2 f3 spread : option Q)
    (timeout : option Q) : M unit :=
  curr_pos ← GetDOFValues self;
  p0 ← or_current f1 curr_pos 0;
  p1 ← or_current f2 curr_pos 1;
  p2 ← or_current f3 curr_pos 2;
  p3 ← or_current spread curr_pos 3;
  let preshape := [p0; p1; p2; p3] in
  emit (controller_SetDesired preshape) ;;
  emit (util_WaitForControllers timeout).

(** [GetForceTorque]: zeros when the sensor is simulated. *)
Definition GetForceTorque (hand : BarrettHand) : M (list Q * list Q) :=
  if negb (ft_simulated hand)
  then s ← get; mret (ft_wrench s)
  else mret (numpy.zeros 3, numpy.zeros 3).

(** The closing direction computed by [__init__]: zeros, one entry per
    gripper joint, then a 1 at every position whose joint is a finger. *)
Definition closing_direction (self : BarrettHand) (gripper_indices : list nat)
  : list Q :=
  fold_left
    (fun closing (entry : nat * nat) =>
       let (i, dof_index) := entry in
       if bool_decide (dof_index ∈ GetFingerIndices self)
       then <[ i := 1 ]> closing
       else closing)
    (zip (seq 0 (length gripper_indices)) gripper_indices)
    (numpy.zeros (length gripper_indices)).

(** [robot.task_manipulation], OpenRAVE's grasping module: whatever its two
    commands do to the scene. *)
Record task_manipulation : Type := mktask_manipulation {
  ReleaseFingers : M unit;
  CloseFingers : M unit
}.

(** [OpenHand(hand, spread, timeout)]; [manipulator] is [hand.manipulator]. *)
Definition OpenHand (tm : task_manipulation) (manipulator : WAM.WAM)
    (hand : BarrettHand) (spread timeout : option Q) : M unit :=
  if simulated hand
  then
    saver ← CreateRobotStateSaver
      (N.lor SaveParameters.ActiveDOF SaveParameters.ActiveManipulator);
    with_ (Restore saver) (WAM.SetActive manipulator ;; ReleaseFingers tm) ;;
    emit (util_WaitForControllers timeout)
  else MoveHand hand (Some 0) (Some 0) (Some 0) spread timeout.

(** [CloseHand(hand, spread, timeout)]. *)
Definition CloseHand (tm : task_manipulation) (manipulator : WAM.WAM)
    (hand : BarrettHand) (spread timeout : option Q) : M unit :=
  if simulated hand
  then
    saver ← CreateRobotStateSaver
      (N.lor SaveParameters.ActiveDOF SaveParameters.ActiveManipulator);
    with_ (Restore saver) (WAM.SetActive manipulator ;; CloseFingers tm) ;;
    emit (util_WaitForControllers timeout)
  else MoveHand hand (Some (32 # 10)) (Some (32 # 10)) (Some (32 # 10))
         spread timeout.

End BarrettHand.

(** ** herbpy/herb.py *)

Module herb.

Definition keys : list string :=
  ["left_arm_sim"; "left_hand_sim"; "left_ft_sim";
   "right_arm_sim"; "right_hand_sim"; "right_ft_sim";
   "head_sim"; "talker_sim"; "segway_sim"; "perception_sim"].

(** [for key in keys: if key not in kw_args: kw_args[key] = sim]. *)
Definition set_defaults {V : Type} (keys : list string) (sim : V)
    (kw_args : gmap string V) : gmap string V :=
  fold_left
    (fun kw key => match kw !! key with
                   | None => <[ key := sim ]> kw
                   | Some _ => kw
                   end)
    keys kw_args.

Definition default_kw_args {V : Type} (sim : V) (kw_args : gmap string V)
  : gmap string V :=
  set_defaults keys sim kw_args.

(** The [attach_viewer] argument of [initialize]: a boolean or the name of
    a viewer. *)
Inductive viewer_arg : Type :=
| as_bool (b : bool)
| as_str (name : string).

(** [attach_viewer == True]. *)
Definition is_True (a : viewer_arg) : bool :=
  match a with
  | as_bool b => b
  | as_str _ => false
  end.

(** Python truth of the argument. *)
Definition truthy (a : viewer_arg) : bool :=
  match a with
  | as_bool b => b
  | as_str name => negb (String.eqb name "")
  end.

Definition name_of (a : viewer_arg) : string :=
  match a with
  | as_bool _ => ""
  | as_str name => name
  end.

Section Viewer.

(** The OpenRAVE environment and its viewer are external: [SetViewer] is
    any transformation of the environment, [GetViewer] any reading. *)
Context {Env Viewer : Type}.
Variable SetViewer : string -> Env -> Env.
Variable GetViewer : Env -> option Viewer.

(** The viewer part of [initialize]: result, environment and warnings.
    The exception text is the source's without its quotation marks. *)
Definition attach (attach_viewer : viewer_arg) (env : Env)
  : (exn + unit) * Env * list string :=
  let '(attach_viewer, env, warnings) :=
    if is_True attach_viewer
    then
      let attach_viewer := as_str "rviz" in
      let env := SetViewer (name_of attach_viewer) env in
      match GetViewer env with
      | None =>
          (as_str "qtcoin", env,
           ["Loading the RViz viewer failed. Do you have or_interactive marker installed? Falling back on qtcoin."])
      | Some _ => (attach_viewer, env, [])
      end
    else (attach_viewer, env, []) in
  if truthy attach_viewer
  then
    match GetViewer env with
    | Some _ => (inr tt, env, warnings)
    | None =>
        let env := SetViewer (name_of attach_viewer) env in
        match GetViewer env with
        | None =>
            (inl (Exception "Failed creating viewer of type {0:s}."),
             env, warnings)
        | Some _ => (inr tt, env, warnings)
        end
    end
  else (inr tt, env, warnings).

End Viewer.

End herb.

(** ** herbpy/herbrobot.py *)

(** [a[indices] = values] on a numpy array: entry by entry; an index out
    of range is an [IndexError]. *)
Definition numpy_setitem (a : list Q) (indices : list nat) (values : list Q)
  : result (list Q) :=
  match set_dofs indices values a with
  | Some a' => Return a'
  | None => Raise (IndexError "index out of bounds")
  end.

Module HERBRobot.

(** The acceleration limits set by [__init__]: 2.0 for every joint of the
    head, the left arm and the right arm, in this order, on top of the
    limits the model came with ([GetDOFAccelerationLimits()]).  The three
    arguments are the [GetArmIndices()] of the manipulators, and
    [GetArmDOF()] is their number. *)
Definition acceleration_limits (head left_arm right_arm : list nat)
    (accel_limits : list Q) : result (list Q) :=
  match numpy_setitem accel_limits head (repeat 2 (length head)) with
  | Raise e => Raise e
  | Return a1 =>
      match numpy_setitem a1 left_arm (repeat 2 (length left_arm)) with
      | Raise e => Raise e
      | Return a2 => numpy_setitem a2 right_arm (repeat 2 (length right_arm))
      end
  end.

Section ExecuteTrajectory.

(** The robot, its manipulators and the base class are prpy's: their
    methods are arbitrary computations on the robot that may raise. *)
Context {Robot Manipulator Traj Value : Type}.
Variable GetTrajectoryManipulators : Traj -> Robot -> list Manipulator.
Variable ClearTrajectoryStatus : Manipulator -> Robot -> (exn + unit) * Robot.
Variable GetTrajectoryStatus : Manipulator -> Robot -> (exn + string) * Robot.
Variable super_ExecuteTrajectory : Traj -> Robot -> (exn + Value) * Robot.

(** [for manipulator in active_manipulators:
       manipulator.ClearTrajectoryStatus()]. *)
Fixpoint clear_all (active_manipulators : list Manipulator) (robot : Robot)
  : (exn + unit) * Robot :=
  match active_manipulators with
  | [] => (inr tt, robot)
  | manipulator :: rest =>
      match ClearTrajectoryStatus manipulator robot with
      | (inl e, robot') => (inl e, robot')
      | (inr _, robot') => clear_all rest robot'
      end
  end.

(** [for manipulator in active_manipulators:
       status = manipulator.GetTrajectoryStatus()
       if status == 'aborted': raise TrajectoryAborted()]. *)
Fixpoint check_all (active_manipulators : list Manipulator) (robot : Robot)
  : (exn + unit) * Robot :=
  match active_manipulators with
  | [] => (inr tt, robot)
  | manipulator :: rest =>
      match GetTrajectoryStatus manipulator robot with
      | (inl e, robot') => (inl e, robot')
      | (inr status, robot') =>
          if String.eqb status "aborted"
          then (inl TrajectoryAborted, robot')
          else check_all rest robot'
      end
  end.

(** [ExecuteTrajectory(self, traj)]. *)
Definition ExecuteTrajectory (traj : Traj) (robot : Robot)
  : (exn + Value) * Robot :=
  let active_manipulators := GetTrajectoryManipulators traj robot in
  match clear_all active_manipulators robot with
  | (inl e, robot) => (inl e, robot)
  | (inr _, robot) =>
      match super_ExecuteTrajectory traj robot with
      | (inl e, robot) => (inl e, robot)
      | (inr value, robot) =>
          match check_all active_manipulators robot with
          | (inl e, robot) => (inl e, robot)
          | (inr _, robot) => (inr value, robot)
          end
      end
  end.

End ExecuteTrajectory.

End HERBRobot.

(** ** Vocabulary of the statements *)


(** The waypoints the forward simulation draws when nothing stops it:
    [traj.Sample(t)] for [t] in [numpy.arange(0, traj.GetDuration(), dt)]. *)
Definition path_samples (traj : Trajectory) (dt : Q) : list Waypoint :=
  omap (fun t => match Sample traj t with
                 | Return w => Some w
                 | Raise _ => None
                 end)
       (numpy.arange 0 (GetDuration traj) dt).

(** The output trajectory built from the waypoints [ws] when [n] waypoints
    are already in it: delta time 0 for the very first point, [dt] after. *)
Fixpoint stamp (dt : Q) (n : nat) (ws : list Waypoint) : Trajectory :=
  match ws with
  | [] => []
  | w :: ws' =>
      InsertDeltaTime w (if Nat.eqb n 0 then 0 else dt) :: stamp dt (S n) ws'
  end.

(** The scene once the arm's joints are set to [q]. *)
Definition place (manipulator : WAM.WAM) (q : list Q) (s : Scene)
  : option Scene :=
  match set_dofs (WAM.GetArmIndices manipulator) q (DOFValues s) with
  | Some dofs =>
      Some {| DOFValues := dofs;
              ActiveDOFIndices := ActiveDOFIndices s;
              ActiveManipulator := ActiveManipulator s;
              DisabledBodies := DisabledBodies s;
              ft_wrench := ft_wrench s |}
  | None => None
  end.

(** [s] differs from [s0] at most in the joint values of the arm. *)
Definition same_frame (manipulator : WAM.WAM) (s0 s : Scene) : Prop :=
  ActiveDOFIndices s = ActiveDOFIndices s0 /\
  ActiveManipulator s = ActiveManipulator s0 /\
  DisabledBodies s = DisabledBodies s0 /\
  ft_wrench s = ft_wrench s0 /\
  length (DOFValues s) = length (DOFValues s0) /\
  forall j : nat, j ∉ WAM.GetArmIndices manipulator ->
    DOFValues s !! j = DOFValues s0 !! j.

(** No collision guard trips with the arm at waypoint [w]. *)
Definition clear_at (fw : Framework) (manipulator : WAM.WAM) (s : Scene)
    (w : Waypoint) : bool :=
  match place manipulator (joint_values w) s with
  | Some s' => negb (CheckCollision fw s') && negb (CheckSelfCollision fw s')
  | None => false
  end.

(** The environment-collision guard, and the self-collision guard, with
    the arm at waypoint [w]. *)
Definition env_collision_at (fw : Framework) (manipulator : WAM.WAM)
    (s : Scene) (w : Waypoint) : bool :=
  match place manipulator (joint_values w) s with
  | Some s' => CheckCollision fw s'
  | None => false
  end.

Definition self_collision_at (fw : Framework) (manipulator : WAM.WAM)
    (s : Scene) (w : Waypoint) : bool :=
  match place manipulator (joint_values w) s with
  | Some s' => CheckSelfCollision fw s'
  | None => false
  end.

(** Some collision guard trips with the arm at waypoint [w]. *)
Definition trips_at (fw : Framework) (manipulator : WAM.WAM) (s : Scene)
    (w : Waypoint) : bool :=
  env_collision_at fw manipulator s w || self_collision_at fw manipulator s w.


(** The event of applying waypoint [w] to the arm. *)
Definition touch (manipulator : WAM.WAM) (w : Waypoint) : Event :=
  robot_SetDOFValues (joint_values w) (WAM.GetArmIndices manipulator).

(** The record the loop logs when it stops at a scene in collision. *)
Definition termination_record (fw : Framework) (s' : Scene) : Event :=
  if CheckCollision fw s'
  then logger_info "Terminated from collision: %s"
  else logger_info "Terminated from self-collision: %s".

(** The deprecation warning for a missing [max_distance]. *)
Definition deprecation (max_distance : option Q) : list Event :=
  match max_distance with
  | None => [warnings_warn
      "MoveUntilTouch now requires the max_distance argument. This will be an error in the future."]
  | Some _ => []
  end.

(** The scene the planner sees: arm active, ignored bodies disabled. *)
Definition planning_scene (manipulator : WAM.WAM)
    (ignore_collisions : list string) (s : Scene) : Scene :=
  {| DOFValues := DOFValues s;
     ActiveDOFIndices := WAM.GetArmIndices manipulator;
     ActiveManipulator := WAM.namespace manipulator;
     DisabledBodies := list_to_set ignore_collisions ∪ DisabledBodies s;
     ft_wrench := ft_wrench s |}.

(** The result of a call that returns [b] once the call it makes last has
    returned, and passes on what that call raises. *)
Definition then_return {A B : Type} (r : result A) (b : B) : result B :=
  match r with
  | Return _ => Return b
  | Raise e => Raise e
  end.

(** The number of control steps [ServoTo] computes:
    [int(math.ceil(duration / timeStep))]. *)
Definition ServoTo_steps (duration timeStep : python.number) : result Z :=
  match python.div duration timeStep with
  | Return quotient => Return (python.int_ (python.math_ceil quotient))
  | Raise e => Raise e
  end.

(** The quotient of two Python numbers in exact arithmetic, a mixed pair
    taken as floats. *)
Definition exact_quotient (a b : python.number) : Q :=
  match a, b with
  | python.int n, python.int m => inject_Z n / inject_Z m
  | _, _ => python.to_float a / python.to_float b
  end.

(** Projections of a run. *)
Definition outcome {A : Type} (run : result A * Scene * list Event) : result A :=
  fst (fst run).
Definition final_scene {A : Type} (run : result A * Scene * list Event) : Scene :=
  snd (fst run).
Definition events {A : Type} (run : result A * Scene * list Event) : list Event :=
  snd run.

(** The last step of [MoveUntilTouch] as a run: a non-empty output
    trajectory is handed to the robot, and what the robot's
    [ExecuteTrajectory] does to the scene and raises is what the step
    does; an empty one is left alone. *)
Definition execution (fw : Framework) (new_traj : Trajectory) (s : Scene)
  : result unit * Scene * list Event :=
  if Nat.ltb 0 (GetNumWaypoints new_traj)
  then (fst (ExecuteTrajectory fw new_traj s),
        snd (ExecuteTrajectory fw new_traj s),
        [robot_ExecuteTrajectory new_traj])
  else (Return tt, s, []).

(** The trajectories handed to [robot.ExecuteTrajectory]. *)
Definition executed (evs : list Event) : list Trajectory :=
  omap (fun e => match e with
                 | robot_ExecuteTrajectory traj => Some traj
                 | _ => None
                 end) evs.

(** The joint values applied by [SetDOFValues], in order. *)
Definition applied (evs : list Event) : list (list Q) :=
  omap (fun e => match e with
                 | robot_SetDOFValues values _ => Some values
                 | _ => None
                 end) evs.

(** The velocities sent to the servo loop. *)
Definition velocity_commands (evs : list Event) : list (list Q) :=
  omap (fun e => match e with
                 | servo_simulator_SetVelocity v => Some v
                 | _ => None
                 end) evs.

(** The halt reason a log record reports. *)
Inductive HaltReason : Type := EnvironmentCollision | SelfCollision.

Definition reason_of (e : Event) : option HaltReason :=
  match e with
  | logger_info fmt =>
      if String.eqb fmt "Terminated from collision: %s"
      then Some EnvironmentCollision
      else if String.eqb fmt "Terminated from self-collision: %s"
      then Some SelfCollision
      else None
  | _ => None
  end.

Definition reported_reasons (evs : list Event) : list HaltReason :=
  omap reason_of evs.

(** The sample sequence a run of the forward simulation produces: the
    joint values it applies, in order. *)
Definition sampled (fw : Framework) (manipulator : WAM.WAM)
    (traj : Trajectory) (dt : Q) (s : Scene) : list (list Q) :=
  applied (events (WAM.forward_simulation fw manipulator traj dt s)).

(** Joint-space displacement between the two ends of a trajectory. *)
Definition displacement (traj : Trajectory) : list Q :=
  match traj with
  | [] => []
  | first :: _ =>
      zip_with Qminus (joint_values (List.last traj first)) (joint_values first)
  end.

(** ** A concrete robot for the examples

    An 11-joint robot: joints 0..6 are the right arm, joints 7..10 the
    fingers and the spread of its hand. *)

Definition right_arm : WAM.WAM :=
  {| WAM.simulated := true;
     WAM.namespace := "/right";
     WAM.arm_indices := [0; 1; 2; 3; 4; 5; 6]%nat |}.

(** The same arm on the real robot. *)
Definition right_arm_hw : WAM.WAM :=
  {| WAM.simulated := false;
     WAM.namespace := "/right";
     WAM.arm_indices := [0; 1; 2; 3; 4; 5; 6]%nat |}.

Definition right_hand : BarrettHand.BarrettHand :=
  {| BarrettHand.simulated := true;
     BarrettHand.ft_simulated := false;
     BarrettHand.j01 := 7;
     BarrettHand.j11 := 8;
     BarrettHand.j21 := 9;
     BarrettHand.j00 := 10 |}.

(** Arm at zero, fingers half closed, a force of 10 N on the sensor. *)
Definition home : Scene :=
  {| DOFValues := [0; 0; 0; 0; 0; 0; 0; 1; 1 # 2; 3 # 2; 3];
     ActiveDOFIndices := [];
     ActiveManipulator := "";
     DisabledBodies := ∅;
     ft_wrench := ([10; 0; 0], [0; 0; 0]) |}.

(** The arm configuration with the first joint at [x]. *)
Definition at_ (x : Q) : list Q := [x; 0; 0; 0; 0; 0; 0].

(** Ten waypoints spanning 1.0 s: the first joint moves from 0 to 1 at
    unit speed. *)
Definition ten_waypoints : Trajectory :=
  mkWaypoint 0 (at_ 0) ::
  map (fun i : nat => mkWaypoint (1 # 9) (at_ (Z.of_nat i # 9))) (seq 1 9).

(** Two waypoints one second apart: the first joint slides by [d]. *)
Definition slide (d : Q) : Trajectory :=
  [mkWaypoint 0 (at_ 0); mkWaypoint 1 (at_ d)].

(** A robot that executes a trajectory by taking the right arm to its last
    waypoint. *)
Definition follow (traj : Trajectory) (s : Scene) : result unit * Scene :=
  match last traj with
  | Some w =>
      match place right_arm (joint_values w) s with
      | Some s' => (Return tt, s')
      | None => (Raise (openrave_exception "invalid dof values"), s)
      end
  | None => (Return tt, s)
  end.

(** A result as the sum the robot-level code returns, and back. *)
Definition as_sum {A : Type} (run : result A * Scene) : (exn + A) * Scene :=
  match run with
  | (Return v, s') => (inr v, s')
  | (Raise e, s') => (inl e, s')
  end.

Definition as_result {A : Type} (run : (exn + A) * Scene) : result A * Scene :=
  match run with
  | (inr v, s') => (Return v, s')
  | (inl e, s') => (Raise e, s')
  end.

(** A [HERBRobot] over the same controller, whose right arm reports every
    trajectory as aborted. *)
Definition follow_and_abort (traj : Trajectory) (s : Scene)
  : result unit * Scene :=
  as_result
    (HERBRobot.ExecuteTrajectory
       (fun _ _ => ["right"])
       (fun _ s => (inr tt, s))
       (fun _ s => (inr "aborted", s))
       (fun traj s => as_sum (follow traj s))
       traj s).

(** A [HERBRobot] over the same controller whose arm is the [WAM] of this
    module, with its own status methods. *)
Definition follow_with_own_arm (traj : Trajectory) (s : Scene)
  : result unit * Scene :=
  as_result
    (HERBRobot.ExecuteTrajectory
       (fun _ _ => [right_arm])
       (fun arm s => as_sum (fst (WAM.ClearTrajectoryStatus arm s)))
       (fun arm s => as_sum (fst (WAM.GetTrajectoryStatus arm s)))
       (fun traj s => as_sum (follow traj s))
       traj s).

(** A world whose planner answers [path], with an obstacle that the arm
    hits once its first joint reaches [wall]; [self] tells whether the
    robot is then in collision with itself as well. *)
Definition world (path : Trajectory) (wall : Q) (self : bool) : Framework :=
  let hit (s : Scene) : bool :=
    match DOFValues s !! 0%nat with
    | Some q => Qle_bool wall q
    | None => false
    end in
  {| PlanToEndEffectorOffset := fun _ _ _ _ => Return path;
     PostProcessPath := fun p => p;
     CheckCollision := hit;
     CheckSelfCollision := fun s => self && hit s;
     CollisionCheck := fun _ _ => false;
     ExecuteTrajectory := follow |}.

(** The same world with the robot whose execution is reported aborted. *)
Definition aborting_world (path : Trajectory) (wall : Q) : Framework :=
  {| PlanToEndEffectorOffset := PlanToEndEffectorOffset (world path wall false);
     PostProcessPath := PostProcessPath (world path wall false);
     CheckCollision := CheckCollision (world path wall false);
     CheckSelfCollision := CheckSelfCollision (world path wall false);
     CollisionCheck := CollisionCheck (world path wall false);
     ExecuteTrajectory := follow_and_abort |}.

(** The same world with the robot whose arm is this module's [WAM]. *)
Definition own_arm_world (path : Trajectory) (wall : Q) : Framework :=
  {| PlanToEndEffectorOffset := PlanToEndEffectorOffset (world path wall false);
     PostProcessPath := PostProcessPath (world path wall false);
     CheckCollision := CheckCollision (world path wall false);
     CheckSelfCollision := CheckSelfCollision (world path wall false);
     CollisionCheck := CollisionCheck (world path wall false);
     ExecuteTrajectory := follow_with_own_arm |}.

(** A world without obstacles in which the arm runs into the robot itself
    once its first joint reaches [wall]. *)
Definition folding_world (path : Trajectory) (wall : Q) : Framework :=
  {| PlanToEndEffectorOffset := fun _ _ _ _ => Return path;
     PostProcessPath := fun p => p;
     CheckCollision := fun _ => false;
     CheckSelfCollision := fun s =>
       match DOFValues s !! 0%nat with
       | Some q => Qle_bool wall q
       | None => false
       end;
     CollisionCheck := fun _ _ => false;
     ExecuteTrajectory := follow |}.

(** A world whose planner fails and whose target check always reports a
    collision. *)
Definition cluttered_world : Framework :=
  {| PlanToEndEffectorOffset := fun _ _ _ _ =>
       Raise (PlanningError "no straight-line path");
     PostProcessPath := fun p => p;
     CheckCollision := fun _ => true;
     CheckSelfCollision := fun _ => false;
     CollisionCheck := fun _ _ => true;
     ExecuteTrajectory := follow |}.

(** The same hand on the real robot. *)
Definition right_hand_hw : BarrettHand.BarrettHand :=
  {| BarrettHand.simulated := false;
     BarrettHand.ft_simulated := false;
     BarrettHand.j01 := 7;
     BarrettHand.j11 := 8;
     BarrettHand.j21 := 9;
     BarrettHand.j00 := 10 |}.

(** A grasping module that drives the three fingers fully open or to 2 rad
    and, as a side effect, leaves the head as the active manipulator. *)
Definition grasper : BarrettHand.task_manipulation :=
  let then_head (s : Scene) : Scene :=
    {| DOFValues := DOFValues s;
       ActiveDOFIndices := [18; 19]%nat;
       ActiveManipulator := "/head";
       DisabledBodies := DisabledBodies s;
       ft_wrench := ft_wrench s |} in
  {| BarrettHand.ReleaseFingers :=
       robot_SetDOFValues_m [0; 0; 0] [7; 8; 9]%nat ;; modify then_head;
     BarrettHand.CloseFingers :=
       robot_SetDOFValues_m [2; 2; 2] [7; 8; 9]%nat ;; modify then_head |}.

(** * Properties *)

(** ** Rounding to a double *)

(** Equal fractions round to the same double. *)
Lemma binary64_comp (q q' : Q) : q == q' -> binary64 q = binary64 q'.
Proof. intros H. unfold binary64. by rewrite (Qred_complete q q' H). Qed.

(** Rounding to the nearest integer does not cross an integer. *)
Lemma round_half_even_le (a b K : Z) :
  (0 < b)%Z -> (a <= K * b)%Z -> (round_half_even a b <= K)%Z.
Proof.
  intros Hb Ha. unfold round_half_even.
  pose proof (Z.div_mod a b ltac:(lia)) as Hdm.
  pose proof (Z.mod_pos_bound a b Hb) as Hm.
  assert (a / b <= K)%Z as Hf by (apply Z.div_le_upper_bound; lia).
  destruct (Z.compare_spec (2 * (a mod b)) b) as [E|E|E]; [|lia|].
  - destruct (Z.even (a / b)); [lia|]. nia.
  - nia.
Qed.

Lemma round_half_even_ge (a b K : Z) :
  (0 < b)%Z -> (K * b <= a)%Z -> (K <= round_half_even a b)%Z.
Proof.
  intros Hb Ha. unfold round_half_even.
  assert (K <= a / b)%Z as Hf by (apply Z.div_le_lower_bound; lia).
  destruct (2 * (a mod b) ?= b)%Z; [destruct (Z.even (a / b))| |]; lia.
Qed.

(** The exponent of a fraction bounded by an integer below [2 ^ 53] is not
    positive: such a fraction is rounded to a multiple of a power of 1/2. *)
Lemma exponent_nonpos (n d : positive) (N : Z) :
  (N < 2 ^ 53)%Z -> (Zpos n <= N * Zpos d)%Z -> (exponent n d <= 0)%Z.
Proof.
  intros HN Hq. unfold exponent. apply Z.max_lub; [|lia].
  assert (ilogb n d <= 52)%Z; [|lia]. unfold ilogb, scaled.
  pose proof (Z.log2_spec (Zpos n) ltac:(lia)) as [Hn1 Hn2].
  pose proof (Z.log2_spec (Zpos d) ltac:(lia)) as [Hd1 Hd2].
  pose proof (Z.log2_nonneg (Zpos n)) as Hn0.
  pose proof (Z.log2_nonneg (Zpos d)) as Hd0.
  set (ln := Z.log2 (Zpos n)) in *. set (ld := Z.log2 (Zpos d)) in *.
  assert (ln - ld <= 53)%Z as He0.
  { destruct (Z_lt_le_dec 53%Z (ln - ld)%Z) as [Hbig|]; [exfalso|lia].
    assert (2 ^ 53 * 2 ^ Z.succ ld <= 2 ^ ln)%Z as Hp.
    { rewrite <- Z.pow_add_r by lia. apply Z.pow_le_mono_r; lia. }
    assert (0 < 2 ^ Z.succ ld)%Z by (apply Z.pow_pos_nonneg; lia).
    nia. }
  destruct (0 <=? ln - ld)%Z eqn:Hs.
  - destruct (Z.leb_spec (Zpos d * 2 ^ (ln - ld)) (Zpos n)) as [Hle|]; [|lia].
    destruct (Z.eq_dec (ln - ld)%Z 53%Z) as [E|]; [exfalso|lia].
    rewrite E in Hle. nia.
  - apply Z.leb_gt in Hs. destruct (_ <=? _)%Z; lia.
Qed.

Lemma Qred_pos_le (q : Q) (n : positive) (N : Z) :
  Qnum (Qred q) = Zpos n -> q <= inject_Z N ->
  (Zpos n <= N * Zpos (Qden (Qred q)))%Z.
Proof.
  intros Hn Hq. rewrite <- (Qred_correct q) in Hq.
  unfold Qle in Hq. simpl in Hq. rewrite Hn in Hq. lia.
Qed.


Lemma binary64_pos_nonneg (n d : positive) : 0 <= binary64_pos n d.
Proof.
  unfold binary64_pos. destruct (scaled _ _ _) as [a b] eqn:Hs.
  rewrite Qred_correct. unfold scaled in Hs.
  destruct (0 <=? exponent n d)%Z eqn:He; inversion Hs; subst; clear Hs.
  - apply Z.leb_le in He.
    assert (0 <= round_half_even (Zpos n) (Zpos d * 2 ^ exponent n d))%Z.
    { apply round_half_even_ge; [|lia].
      apply Z.mul_pos_pos; [lia|]. by apply Z.pow_pos_nonneg. }
    unfold Qle. simpl.
    assert (0 <= 2 ^ exponent n d)%Z by (apply Z.pow_nonneg; lia). nia.
  - assert (0 <= round_half_even (Zpos n * 2 ^ (- exponent n d)) (Zpos d))%Z.
    { apply round_half_even_ge; [lia|].
      assert (0 <= 2 ^ (- exponent n d))%Z by (apply Z.pow_nonneg; lia). nia. }
    unfold Qle. simpl. lia.
Qed.

(** Rounding keeps the sign. *)
Lemma binary64_nonneg (q : Q) : 0 <= q -> 0 <= binary64 q.
Proof.
  intros Hq. unfold binary64.
  destruct (Qnum (Qred q)) as [|n|n] eqn:Hn.
  - apply Qle_refl.
  - apply binary64_pos_nonneg.
  - exfalso. rewrite <- (Qred_correct q) in Hq. unfold Qle in Hq.
    simpl in Hq. rewrite Hn in Hq. lia.
Qed.

Lemma binary64_nonpos (q : Q) : q <= 0 -> binary64 q <= 0.
Proof.
  intros Hq. unfold binary64.
  destruct (Qnum (Qred q)) as [|n|n] eqn:Hn.
  - apply Qle_refl.
  - exfalso. rewrite <- (Qred_correct q) in Hq. unfold Qle in Hq.
    simpl in Hq. rewrite Hn in Hq. lia.
  - pose proof (binary64_pos_nonneg n (Qden (Qred q))) as H.
    apply Qopp_le_compat in H. exact H.
Qed.

(** Rounding does not cross an integer below [2 ^ 53]: integers of that size
    are doubles, and rounding is monotone. *)
Lemma binary64_le_Z (q : Q) (N : Z) :
  (0 <= N < 2 ^ 53)%Z -> q <= inject_Z N -> binary64 q <= inject_Z N.
Proof.
  intros [HN0 HN] Hq.
  destruct (Qlt_le_dec 0 q) as [Hpos|Hneg].
  2:{ eapply Qle_trans; [by apply binary64_nonpos|].
      change 0 with (inject_Z 0). rewrite <- Zle_Qle. exact HN0. }
  unfold binary64.
  destruct (Qnum (Qred q)) as [|n|n] eqn:Hn.
  - change 0 with (inject_Z 0). by rewrite <- Zle_Qle.
  - pose proof (Qred_pos_le q n N Hn Hq) as Hle.
    set (d := Qden (Qred q)) in *.
    pose proof (exponent_nonpos n d N HN Hle) as He.
    unfold binary64_pos, scaled.
    destruct (Z.leb_spec 0 (exponent n d)) as [He0|He0].
    + assert (exponent n d = 0%Z) as -> by lia.
      rewrite Qred_correct, Z.pow_0_r, !Z.mul_1_r.
      rewrite <- Zle_Qle. by apply round_half_even_le.
    + rewrite Qred_correct.
      assert (0 < 2 ^ (- exponent n d))%Z as Hp by (apply Z.pow_pos_nonneg; lia).
      assert (round_half_even (Zpos n * 2 ^ (- exponent n d)) (Zpos d)
              <= N * 2 ^ (- exponent n d))%Z as Hm.
      { apply round_half_even_le; [lia|]. nia. }
      unfold Qle. simpl. rewrite Z2Pos.id by exact Hp. lia.
  - exfalso. rewrite <- (Qred_correct q) in Hpos. unfold Qlt in Hpos.
    simpl in Hpos. rewrite Hn in Hpos. lia.
Qed.


(** ** Running the monad *)

Lemma run_bind {A B : Type} (m : M A) (k : A -> M B) (s : Scene) :
  (m ≫= k) s =
  match m s with
  | (Return a, s', ev) =>
      match k a s' with (r, s'', ev') => (r, s'', ev ++ ev') end
  | (Raise e, s', ev) => (Raise e, s', ev)
  end.
Proof. reflexivity. Qed.

Lemma run_ret {A : Type} (a : A) (s : Scene) : (mret a : M A) s = (Return a, s, []).
Proof. reflexivity. Qed.

Lemma outcome_run {A : Type} (r : result A) (s : Scene) (ev : list Event) :
  outcome (r, s, ev) = r.
Proof. reflexivity. Qed.

Lemma final_scene_run {A : Type} (r : result A) (s : Scene) (ev : list Event) :
  final_scene (r, s, ev) = s.
Proof. reflexivity. Qed.

Lemma events_run {A : Type} (r : result A) (s : Scene) (ev : list Event) :
  events (r, s, ev) = ev.
Proof. reflexivity. Qed.

(** ** Setting joint values *)

Section SetDofs.

Local Open Scope nat_scope.

Lemma set_dofs_length (indices : list nat) :
  forall (values dofs dofs' : list Q),
    set_dofs indices values dofs = Some dofs' -> length dofs' = length dofs.
Proof.
  induction indices as [|i indices IH]; intros [|v values] dofs dofs' H;
    simpl in H; try discriminate.
  - by inversion H.
  - destruct (i <? length dofs); [|discriminate].
    apply IH in H. by rewrite length_insert in H.
Qed.

Lemma set_dofs_outside (indices : list nat) :
  forall (values dofs dofs' : list Q) (j : nat),
    set_dofs indices values dofs = Some dofs' ->
    j ∉ indices -> dofs' !! j = dofs !! j.
Proof.
  induction indices as [|i indices IH]; intros [|v values] dofs dofs' j H Hj;
    simpl in H; try discriminate.
  - by inversion H.
  - destruct (i <? length dofs); [|discriminate].
    apply not_elem_of_cons in Hj as [Hne Hj].
    rewrite (IH _ _ _ j H Hj).
    by apply list_lookup_insert_ne.
Qed.

(** Two joint vectors of one length that agree outside [indices] cannot be
    told apart once [indices] are overwritten. *)
Lemma set_dofs_agree (indices : list nat) :
  forall (values d1 d2 : list Q),
    length d1 = length d2 ->
    (forall j, j ∉ indices -> d1 !! j = d2 !! j) ->
    set_dofs indices values d1 = set_dofs indices values d2.
Proof.
  induction indices as [|i indices IH]; intros [|v values] d1 d2 Hlen Hout;
    simpl; try reflexivity.
  - f_equal. apply list_eq. intros j. apply Hout. apply not_elem_of_nil.
  - rewrite Hlen. destruct (i <? length d2) eqn:Hi; [|reflexivity].
    apply IH.
    + by rewrite !length_insert.
    + intros j Hj. destruct (decide (i = j)) as [->|Hne].
      * apply Nat.ltb_lt in Hi.
        rewrite !list_lookup_insert_eq; [done| |]; lia.
      * rewrite !list_lookup_insert_ne by done.
        apply Hout. by apply not_elem_of_cons.
Qed.

End SetDofs.

Lemma same_frame_refl (manipulator : WAM.WAM) (s : Scene) :
  same_frame manipulator s s.
Proof. by repeat split. Qed.

Lemma place_same_frame (manipulator : WAM.WAM) (q : list Q) (s0 s s' : Scene) :
  same_frame manipulator s0 s ->
  place manipulator q s = Some s' ->
  same_frame manipulator s0 s'.
Proof.
  intros (Ha & Hm & Hd & Hf & Hl & Ho). unfold place.
  destruct (set_dofs _ q (DOFValues s)) as [dofs|] eqn:E; [|discriminate].
  intros [= <-]. repeat split; simpl; try done.
  - by rewrite (set_dofs_length _ _ _ _ E).
  - intros j Hj. rewrite (set_dofs_outside _ _ _ _ j E Hj). by apply Ho.
Qed.

Lemma place_frame (manipulator : WAM.WAM) (q : list Q) (s0 s : Scene) :
  same_frame manipulator s0 s ->
  place manipulator q s = place manipulator q s0.
Proof.
  intros (Ha & Hm & Hd & Hf & Hl & Ho). unfold place.
  rewrite (set_dofs_agree _ q (DOFValues s) (DOFValues s0) Hl Ho).
  destruct (set_dofs _ q (DOFValues s0)); [|reflexivity].
  by rewrite Ha, Hm, Hd, Hf.
Qed.

Lemma run_SetDOFValues (manipulator : WAM.WAM) (q : list Q) (s : Scene) :
  WAM.SetDOFValues manipulator q s =
  match place manipulator q s with
  | Some s' =>
      (Return tt, s', [robot_SetDOFValues q (WAM.GetArmIndices manipulator)])
  | None => (Raise (openrave_exception "invalid dof values"), s, [])
  end.
Proof.
  unfold WAM.SetDOFValues, robot_SetDOFValues_m, place.
  by destruct (set_dofs _ q (DOFValues s)).
Qed.

(** ** The forward-simulation loop *)

Section Simulate.

Variable fw : Framework.
Variable manipulator : WAM.WAM.
Variable traj : Trajectory.
Variable dt : Q.

Lemma Insert_end (acc : Trajectory) (w : Waypoint) :
  Insert acc (GetNumWaypoints acc) w = acc ++ [w].
Proof.
  unfold Insert, GetNumWaypoints. by rewrite take_ge, drop_ge by lia.
Qed.

(** One iteration, for a sample that can be drawn and applied. *)
Lemma simulate_step (t : Q) (times : list Q) (acc : Trajectory)
    (s s' : Scene) (w : Waypoint) :
  Sample traj t = Return w ->
  place manipulator (joint_values w) s = Some s' ->
  WAM.simulate fw manipulator traj dt (t :: times) acc s =
  if CheckCollision fw s'
  then (Return (true, acc), s',
        [touch manipulator w; logger_info "Terminated from collision: %s"])
  else if CheckSelfCollision fw s'
  then (Return (true, acc), s',
        [touch manipulator w; logger_info "Terminated from self-collision: %s"])
  else
    match WAM.simulate fw manipulator traj dt times
            (acc ++ [InsertDeltaTime w
                       (if Nat.eqb (length acc) 0 then 0 else dt)]) s' with
    | (r, s'', ev) => (r, s'', touch manipulator w :: ev)
    end.
Proof.
  intros HS HP. cbn [WAM.simulate].
  rewrite run_bind. unfold lift at 1. rewrite HS.
  rewrite run_bind, run_SetDOFValues. unfold ExtractJointValues. rewrite HP.
  rewrite run_bind. unfold get at 1.
  destruct (CheckCollision fw s'); [reflexivity|].
  destruct (CheckSelfCollision fw s'); [reflexivity|].
  rewrite Insert_end. unfold GetNumWaypoints.
  by destruct (WAM.simulate _ _ _ _ _ _ s') as [[r s''] ev].
Qed.

(** An iteration whose sample cannot be drawn or applied raises and
    leaves the scene as it found it. *)
Lemma simulate_step_raises (t : Q) (times : list Q) (acc : Trajectory)
    (s : Scene) :
  (forall w, Sample traj t = Return w ->
             place manipulator (joint_values w) s = None) ->
  exists e, WAM.simulate fw manipulator traj dt (t :: times) acc s =
            (Raise e, s, []).
Proof.
  intros H. cbn [WAM.simulate]. rewrite run_bind. unfold lift at 1.
  destruct (Sample traj t) as [w|e] eqn:HS; [|by eexists].
  rewrite run_bind, run_SetDOFValues. unfold ExtractJointValues.
  rewrite (H w eq_refl). by eexists.
Qed.

(** The loop touches nothing but the joints of the arm, however it ends. *)
Lemma simulate_frame (times : list Q) :
  forall (acc : Trajectory) (s0 s : Scene),
    same_frame manipulator s0 s ->
    same_frame manipulator s0
      (final_scene (WAM.simulate fw manipulator traj dt times acc s)).
Proof.
  induction times as [|t times IH]; intros acc s0 s Hs; [exact Hs|].
  destruct (Sample traj t) as [w|e] eqn:HS.
  - destruct (place manipulator (joint_values w) s) as [s'|] eqn:HP.
    + rewrite (simulate_step _ _ _ _ _ _ HS HP).
      pose proof (place_same_frame _ _ _ _ _ Hs HP) as Hs'.
      destruct (CheckCollision fw s'); [exact Hs'|].
      destruct (CheckSelfCollision fw s'); [exact Hs'|].
      specialize (IH (acc ++ [InsertDeltaTime w
                        (if Nat.eqb (length acc) 0 then 0 else dt)]) s0 s' Hs').
      by destruct (WAM.simulate _ _ _ _ _ _ s') as [[r s''] ev].
    + destruct (simulate_step_raises t times acc s) as [e ->]; [|exact Hs].
      intros w' Hw'. rewrite HS in Hw'. by inversion Hw'; subst.
  - destruct (simulate_step_raises t times acc s) as [e' ->]; [|exact Hs].
    intros w' Hw'. rewrite HS in Hw'. discriminate.
Qed.

(** The values applied by the loop are the joint values of the samples
    drawn, in order: a prefix of the samples of [times]. *)
Lemma simulate_applied (times : list Q) :
  forall (ws : list Waypoint) (acc : Trajectory) (s : Scene),
    Forall2 (fun t w => Sample traj t = Return w) times ws ->
    applied (events (WAM.simulate fw manipulator traj dt times acc s))
      `prefix_of` map joint_values ws.
Proof.
  induction times as [|t times IH]; intros ws acc s Hws.
  - apply prefix_nil.
  - apply Forall2_cons_inv_l in Hws as (w & ws' & HS & Hws & ->).
    destruct (place manipulator (joint_values w) s) as [s'|] eqn:HP.
    + rewrite (simulate_step _ _ _ _ _ _ HS HP).
      destruct (CheckCollision fw s');
        [by apply prefix_cons, prefix_nil|].
      destruct (CheckSelfCollision fw s');
        [by apply prefix_cons, prefix_nil|].
      specialize (IH ws' (acc ++ [InsertDeltaTime w
                        (if Nat.eqb (length acc) 0 then 0 else dt)]) s' Hws).
      destruct (WAM.simulate _ _ _ _ _ _ s') as [[r s''] ev].
      by apply prefix_cons.
    + destruct (simulate_step_raises t times acc s) as [e ->].
      * intros w' Hw'. rewrite HS in Hw'. by inversion Hw'; subst.
      * apply prefix_nil.
Qed.

(** While the samples are clear the loop keeps going: it applies them,
    appends them to the output trajectory, and carries on with the rest. *)
Lemma simulate_clear_prefix (s0 : Scene) (pre : list Q) :
  forall (ws : list Waypoint) (rest : list Q) (acc : Trajectory) (s : Scene),
    same_frame manipulator s0 s ->
    Forall2 (fun t w => Sample traj t = Return w /\
                        clear_at fw manipulator s0 w = true) pre ws ->
    exists s1,
      same_frame manipulator s0 s1 /\
      WAM.simulate fw manipulator traj dt (pre ++ rest) acc s =
      match WAM.simulate fw manipulator traj dt rest
              (acc ++ stamp dt (length acc) ws) s1 with
      | (r, s2, ev) => (r, s2, map (touch manipulator) ws ++ ev)
      end.
Proof.
  induction pre as [|t pre IH]; intros ws rest acc s Hs Hws.
  - apply Forall2_nil_inv_l in Hws as ->. exists s. split; [exact Hs|].
    simpl. rewrite app_nil_r.
    by destruct (WAM.simulate _ _ _ _ _ _ s) as [[r s2] ev].
  - apply Forall2_cons_inv_l in Hws as (w & ws' & [HS Hclear] & Hws & ->).
    unfold clear_at in Hclear.
    destruct (place manipulator (joint_values w) s0) as [s'|] eqn:HP;
      [|discriminate].
    apply andb_true_iff in Hclear as [Hc Hsc].
    apply negb_true_iff in Hc, Hsc.
    rewrite <- (place_frame _ _ _ _ Hs) in HP.
    pose proof (place_same_frame _ _ _ _ _ Hs HP) as Hs'.
    destruct (IH ws' rest
                (acc ++ [InsertDeltaTime w
                           (if Nat.eqb (length acc) 0 then 0 else dt)])
                s' Hs' Hws) as (s1 & Hs1 & Heq).
    exists s1. split; [exact Hs1|].
    rewrite <- app_comm_cons, (simulate_step _ _ _ _ _ _ HS HP), Hc, Hsc, Heq.
    rewrite <- app_assoc. simpl.
    rewrite length_app. simpl.
    replace (length acc + 1)%nat with (S (length acc)) by lia.
    clear Heq IH.
    by destruct (WAM.simulate _ _ _ _ rest _ s1) as [[r s2] ev].
Qed.

End Simulate.

(** ** The samples of a trajectory *)

(** The number of times drawn: the ceiling of the double quotient. *)
Lemma arange_length (stop step : Q) :
  length (numpy.arange 0 stop step)
  = Z.to_nat (Qceiling (binary64 (binary64 stop / step))).
Proof.
  unfold numpy.arange. rewrite length_map, length_seq.
  by rewrite (binary64_comp (stop - 0) stop) by ring.
Qed.

Lemma arange_nonneg (stop step t : Q) :
  0 < step -> t ∈ numpy.arange 0 stop step -> 0 <= t.
Proof.
  intros Hstep Ht. unfold numpy.arange in Ht.
  apply list_elem_of_fmap in Ht as (i & -> & _).
  assert (0 <= binary64 (0 + step)) as Hnext.
  { apply binary64_nonneg. rewrite Qplus_0_l. by apply Qlt_le_weak. }
  destruct i as [|[|i]]; [apply Qle_refl|exact Hnext|].
  apply binary64_nonneg. rewrite Qplus_0_l. apply binary64_nonneg.
  apply Qmult_le_0_compat.
  - change 0 with (inject_Z 0). rewrite <- Zle_Qle. lia.
  - apply binary64_nonneg. unfold Qminus. by rewrite Qplus_0_r.
Qed.

Lemma arange_empty (step : Q) : numpy.arange 0 0 step = [].
Proof.
  apply length_zero_iff_nil. rewrite arange_length.
  change (binary64 0) with 0.
  by rewrite (binary64_comp (0 / step) 0) by (unfold Qdiv; apply Qmult_0_l).
Qed.

(** The first time drawn, when there is one, is 0. *)
Lemma arange_first (stop step : Q) :
  numpy.arange 0 stop step ≠ [] -> head (numpy.arange 0 stop step) = Some 0.
Proof.
  unfold numpy.arange. by destruct (Z.to_nat _).
Qed.

Lemma Sample_nonneg (first : Waypoint) (rest : list Waypoint) (t : Q) :
  0 <= t -> exists w, Sample (first :: rest) t = Return w.
Proof.
  intros Ht. unfold Sample. apply Qle_bool_iff in Ht. rewrite Ht. by eexists.
Qed.

Lemma omap_Forall2 {A B : Type} (f : A -> option B) (xs : list A) :
  (forall x, x ∈ xs -> is_Some (f x)) ->
  Forall2 (fun x y => f x = Some y) xs (omap f xs).
Proof.
  induction xs as [|x xs IH]; intros H; simpl; [constructor|].
  destruct (H x) as [y Hy]; [by left|]. rewrite Hy.
  constructor; [done|]. apply IH. intros x' Hx'. apply H. by right.
Qed.

(** With a positive period every sample the loop asks for can be drawn. *)
Lemma samples_drawn (traj : Trajectory) (dt : Q) :
  0 < dt ->
  Forall2 (fun t w => Sample traj t = Return w)
    (numpy.arange 0 (GetDuration traj) dt) (path_samples traj dt).
Proof.
  intros Hdt. unfold path_samples.
  destruct traj as [|first rest].
  - simpl. rewrite arange_empty. constructor.
  - eapply Forall2_impl; [apply omap_Forall2|].
    + intros t Ht. apply (arange_nonneg _ _ _ Hdt) in Ht.
      destruct (Sample_nonneg first rest t Ht) as [w ->]. by eexists.
    + intros t w H. cbv beta in H.
      by destruct (Sample (first :: rest) t); inversion H.
Qed.




(** ** Savers: what the two [with] blocks put back *)

Lemma Restore_LinkTransformation (manipulator : WAM.WAM) (s s' : Scene) :
  same_frame manipulator s s' ->
  Restore {| saved := s; options := SaveParameters.LinkTransformation |} s' = s.
Proof.
  intros (Ha & Hm & Hd & Hf & _ & _). unfold Restore. simpl.
  destruct s; simpl in *. by rewrite Ha, Hm, Hd, Hf.
Qed.

(** The forward simulation as a whole: the loop's result and events, on a
    scene that is put back. *)
Lemma forward_simulation_run (fw : Framework) (manipulator : WAM.WAM)
    (traj : Trajectory) (dt : Q) (s : Scene) :
  WAM.forward_simulation fw manipulator traj dt s =
  let run := WAM.simulate fw manipulator traj dt
               (numpy.arange 0 (GetDuration traj) dt) [] s in
  (outcome run, s, events run).
Proof.
  unfold WAM.forward_simulation. rewrite run_bind.
  unfold CreateRobotStateSaver at 1. unfold with_.
  pose proof (simulate_frame fw manipulator traj dt
                (numpy.arange 0 (GetDuration traj) dt) [] s s
                (same_frame_refl _ _)) as Hframe.
  destruct (WAM.simulate _ _ _ _ _ _ s) as [[r s'] ev].
  unfold final_scene, outcome, events in *. cbn [fst snd] in *.
  by rewrite (Restore_LinkTransformation _ _ _ Hframe).
Qed.

Lemma run_mapM_savers (ignore_collisions : list string) (s : Scene) :
  mapM CreateKinBodyStateSaver ignore_collisions s =
  (Return (map (fun name =>
                  {| body := name;
                     was_disabled := bool_decide (name ∈ DisabledBodies s) |})
               ignore_collisions), s, []).
Proof.
  induction ignore_collisions as [|b bs IH]; [reflexivity|].
  cbn [mapM]. rewrite run_bind. unfold CreateKinBodyStateSaver at 1.
  rewrite run_bind, IH. reflexivity.
Qed.

Lemma run_disable_all (ignore_collisions : list string) :
  forall s : Scene,
    for_each ignore_collisions (fun b => modify (Enable b false)) s =
    (Return tt,
     {| DOFValues := DOFValues s;
        ActiveDOFIndices := ActiveDOFIndices s;
        ActiveManipulator := ActiveManipulator s;
        DisabledBodies := list_to_set ignore_collisions ∪ DisabledBodies s;
        ft_wrench := ft_wrench s |}, []).
Proof.
  induction ignore_collisions as [|b bs IH]; intros s.
  - simpl. unfold ret. destruct s; simpl. do 3 f_equal.
    by rewrite (left_id_L ∅ (∪)).
  - cbn [for_each]. rewrite run_bind. unfold modify at 1. rewrite IH. simpl.
    do 3 f_equal. apply set_eq. intros x.
    rewrite !elem_of_union, ?elem_of_list_to_set, ?elem_of_cons,
      ?elem_of_singleton.
    tauto.
Qed.

Lemma nested_frame (savers : list KinBodyStateSaver) (s : Scene) :
  DOFValues (nested savers s) = DOFValues s /\
  ActiveDOFIndices (nested savers s) = ActiveDOFIndices s /\
  ActiveManipulator (nested savers s) = ActiveManipulator s /\
  ft_wrench (nested savers s) = ft_wrench s.
Proof. induction savers as [|sv savers IH]; [done|]. simpl. apply IH. Qed.

(** Leaving the body savers gives every ignored body the state it had on
    entry and leaves the other bodies alone. *)
Lemma nested_disabled (D0 : gset string) (names : list string) (s : Scene)
    (x : string) :
  (x ∈ DisabledBodies
         (nested (map (fun name =>
                         {| body := name;
                            was_disabled := bool_decide (name ∈ D0) |}) names) s))
  <-> ((x ∈ names /\ x ∈ D0) \/ ((x ∉ names) /\ x ∈ DisabledBodies s)).
Proof.
  induction names as [|b bs IH].
  - simpl. rewrite elem_of_nil. pose proof (not_elem_of_nil x). tauto.
  - cbn [map nested fold_right] in *. unfold RestoreBody at 1. cbn [body was_disabled].
    fold (nested (map (fun name =>
                        {| body := name;
                           was_disabled := bool_decide (name ∈ D0) |}) bs) s).
    unfold Enable; simpl. case_bool_decide; simpl.
    + rewrite elem_of_union, elem_of_singleton, IH, not_elem_of_cons, elem_of_cons.
      destruct (decide (x = b)) as [->|]; tauto.
    + rewrite elem_of_difference, elem_of_singleton, IH, not_elem_of_cons, elem_of_cons.
      destruct (decide (x = b)) as [->|]; tauto.
Qed.

(** The planning block: the planner sees the [planning_scene]; afterwards
    the scene is as before. *)
Lemma run_plan (fw : Framework) (manipulator : WAM.WAM) (direction : list Q)
    (distance max_distance : Q) (ignore_collisions : list string) (s : Scene) :
  WAM.plan fw manipulator direction distance max_distance ignore_collisions s =
  (PlanToEndEffectorOffset fw (planning_scene manipulator ignore_collisions s)
     direction distance max_distance, s, []).
Proof.
  unfold WAM.plan. rewrite run_bind, run_mapM_savers.
  rewrite run_bind. unfold CreateRobotStateSaver at 1. unfold with_.
  rewrite run_bind. unfold WAM.SetActive at 1, modify at 1.
  rewrite run_bind, run_disable_all. cbn [DOFValues ActiveDOFIndices
    ActiveManipulator DisabledBodies ft_wrench].
  rewrite run_bind. unfold get at 1, lift.
  fold (planning_scene manipulator ignore_collisions s).
  set (r := PlanToEndEffectorOffset fw _ direction distance max_distance).
  assert (Restore
            {| saved := s;
               options := N.lor (N.lor SaveParameters.ActiveDOF
                                       SaveParameters.ActiveManipulator)
                                SaveParameters.LinkTransformation |}
            (nested (map (fun name =>
                            {| body := name;
                               was_disabled :=
                                 bool_decide (name ∈ DisabledBodies s) |})
                         ignore_collisions)
                    (planning_scene manipulator ignore_collisions s)) = s)
    as Hback.
  { unfold Restore. simpl.
    destruct (nested_frame
                (map (fun name =>
                        {| body := name;
                           was_disabled :=
                             bool_decide (name ∈ DisabledBodies s) |})
                     ignore_collisions)
                (planning_scene manipulator ignore_collisions s))
      as (_ & _ & _ & ->).
    destruct s as [dofs act man dis ft]; simpl. f_equal.
    apply set_eq. intros x. rewrite nested_disabled. simpl.
    rewrite elem_of_union, elem_of_list_to_set.
    destruct (decide (x ∈ ignore_collisions)); tauto. }
  destruct r; simpl; by rewrite Hback.
Qed.

(** ** The loop on clear and on tripping samples *)

Lemma stamp_length (dt : Q) (ws : list Waypoint) :
  forall n : nat, length (stamp dt n ws) = length ws.
Proof. induction ws as [|w ws IH]; intros n; simpl; [done|]. by rewrite IH. Qed.


Lemma Forall2_and_forallb {A B : Type} (R : A -> B -> Prop) (p : B -> bool)
    (xs : list A) (ys : list B) :
  Forall2 R xs ys -> forallb p ys = true ->
  Forall2 (fun x y => R x y /\ p y = true) xs ys.
Proof.
  induction 1 as [|x y xs ys HR _ IH]; intros Hp; [constructor|].
  simpl in Hp. apply andb_true_iff in Hp as [Hy Hp].
  constructor; [by split|by apply IH].
Qed.

Section Outcomes.

Variable fw : Framework.
Variable manipulator : WAM.WAM.
Variable traj : Trajectory.
Variable dt : Q.

(** Every sample clear: the loop runs to the end of the times and the
    output trajectory holds all the samples. *)
Lemma simulate_completes (s : Scene) (times : list Q) (samples : list Waypoint) :
  Forall2 (fun t w => Sample traj t = Return w) times samples ->
  forallb (clear_at fw manipulator s) samples = true ->
  exists s1,
    WAM.simulate fw manipulator traj dt times [] s =
    (Return (false, stamp dt 0 samples), s1, map (touch manipulator) samples).
Proof.
  intros Hdraw Hclear.
  destruct (simulate_clear_prefix fw manipulator traj dt s times samples []
              [] s (same_frame_refl _ _)
              (Forall2_and_forallb _ _ _ _ Hdraw Hclear)) as (s1 & _ & Heq).
  exists s1. rewrite app_nil_r in Heq. rewrite Heq. simpl.
  by rewrite app_nil_r.
Qed.

(** The samples before number [k] clear and sample [k] tripping: the loop
    breaks there, with the first [k] samples in the output trajectory and
    the tripping one applied but left out. *)
Lemma simulate_halts (s : Scene) (times : list Q) (samples : list Waypoint)
    (k : nat) (w : Waypoint) :
  Forall2 (fun t w => Sample traj t = Return w) times samples ->
  forallb (clear_at fw manipulator s) (take k samples) = true ->
  samples !! k = Some w ->
  trips_at fw manipulator s w = true ->
  exists s',
    place manipulator (joint_values w) s = Some s' /\
    WAM.simulate fw manipulator traj dt times [] s =
    (Return (true, stamp dt 0 (take k samples)), s',
     map (touch manipulator) (take k samples) ++ [touch manipulator w; termination_record fw s']).
Proof.
  intros Hdraw Hclear Hk Htrip.
  destruct (Forall2_lookup_r _ _ _ _ _ Hdraw Hk) as (t & Ht & HS).
  pose proof (Forall2_take _ _ _ k Hdraw) as Hpre.
  destruct (simulate_clear_prefix fw manipulator traj dt s (take k times)
              (take k samples) (t :: drop (S k) times) [] s
              (same_frame_refl _ _)
              (Forall2_and_forallb _ _ _ _ Hpre Hclear)) as (s1 & Hs1 & Heq).
  rewrite (take_drop_middle _ _ _ Ht) in Heq.
  unfold trips_at, env_collision_at, self_collision_at in Htrip.
  destruct (place manipulator (joint_values w) s) as [s'|] eqn:HP;
    [|discriminate].
  exists s'. split; [reflexivity|].
  rewrite Heq. rewrite <- (place_frame _ _ _ _ Hs1) in HP.
  rewrite (simulate_step _ _ _ _ _ _ _ _ _ _ HS HP).
  unfold termination_record. simpl.
  destruct (CheckCollision fw s'); [reflexivity|].
  simpl in Htrip. by rewrite Htrip.
Qed.

End Outcomes.

(** ** [MoveUntilTouch] end to end *)

Lemma run_execution (fw : Framework) (new_traj : Trajectory) (s : Scene) :
  (if Nat.ltb 0 (GetNumWaypoints new_traj)
   then robot_ExecuteTrajectory_m fw new_traj
   else mret tt) s = execution fw new_traj s.
Proof.
  unfold execution. destruct (Nat.ltb 0 (GetNumWaypoints new_traj)); [|done].
  unfold robot_ExecuteTrajectory_m. rewrite run_bind. unfold emit at 1.
  unfold external. by destruct (ExecuteTrajectory fw new_traj s) as [r s'].
Qed.

(** [MoveUntilTouch] by cases: the planner fails; the arm is real; or, in
    simulation, the forward simulation, which puts the scene back, is
    followed by the execution of a non-empty output trajectory. *)
Lemma run_MoveUntilTouch_cases (dt : Q) (fw : Framework)
    (manipulator : WAM.WAM) (direction : list Q) (distance : Q)
    (max_distance : option Q) (max_force : Q) (max_torque : option (list Q))
    (ignore_collisions : option (list string)) (s : Scene) :
  WAM.MoveUntilTouch_dt dt fw manipulator direction distance max_distance
    max_force max_torque ignore_collisions s =
  match PlanToEndEffectorOffset fw
          (planning_scene manipulator (default [] ignore_collisions) s)
          direction distance (default 1 max_distance) with
  | Raise e => (Raise e, s, deprecation max_distance)
  | Return path =>
      if WAM.simulated manipulator
      then
        let traj := PostProcessPath fw path in
        let run := WAM.simulate fw manipulator traj dt
                     (numpy.arange 0 (GetDuration traj) dt) [] s in
        match outcome run with
        | Return (is_collision, new_traj) =>
            (then_return (outcome (execution fw new_traj s)) is_collision,
             final_scene (execution fw new_traj s),
             deprecation max_distance ++ events run
               ++ events (execution fw new_traj s))
        | Raise e => (Raise e, s, deprecation max_distance ++ events run)
        end
      else
        (Raise (NotImplementedError
           "MoveUntilTouch not yet implemented under ros_control."),
         s, deprecation max_distance)
  end.
Proof.
  unfold WAM.MoveUntilTouch_dt.
  rewrite run_bind.
  assert (match max_distance with
          | Some d => mret d
          | None =>
              emit (warnings_warn
                "MoveUntilTouch now requires the max_distance argument. This will be an error in the future.") ;;
              mret 1
          end s = (Return (default 1 max_distance), s, deprecation max_distance))
    as -> by (by destruct max_distance).
  rewrite run_bind, run_plan.
  destruct (PlanToEndEffectorOffset fw _ direction distance _) as [path|e];
    [|by rewrite app_nil_r].
  destruct (WAM.simulated manipulator); cbn [negb].
  2:{ unfold raise. by rewrite app_nil_r. }
  rewrite run_bind, forward_simulation_run. cbv zeta.
  destruct (WAM.simulate _ _ _ _ _ _ s) as [[[[is_collision new_traj]|e] s'] ev];
    unfold outcome at 1 2, events at 1 2; cbn [fst snd].
  - rewrite run_bind, run_execution.
    destruct (execution fw new_traj s) as [[[[]|e] s1] ev1];
      unfold outcome, final_scene, events; cbn [fst snd then_return].
    + rewrite run_ret. by rewrite app_nil_r.
    + reflexivity.
  - simpl. by rewrite ?app_nil_r.
Qed.

Lemma run_MoveUntilTouch (dt : Q) (fw : Framework) (manipulator : WAM.WAM)
    (direction : list Q) (distance : Q) (max_distance : option Q)
    (max_force : Q) (max_torque : option (list Q))
    (ignore_collisions : option (list string)) (s : Scene) (path : Trajectory) :
  WAM.simulated manipulator = true ->
  PlanToEndEffectorOffset fw
    (planning_scene manipulator (default [] ignore_collisions) s)
    direction distance (default 1 max_distance) = Return path ->
  WAM.MoveUntilTouch_dt dt fw manipulator direction distance max_distance
    max_force max_torque ignore_collisions s =
  let traj := PostProcessPath fw path in
  let run := WAM.simulate fw manipulator traj dt
               (numpy.arange 0 (GetDuration traj) dt) [] s in
  match outcome run with
  | Return (is_collision, new_traj) =>
      (then_return (outcome (execution fw new_traj s)) is_collision,
       final_scene (execution fw new_traj s),
       deprecation max_distance ++ events run
         ++ events (execution fw new_traj s))
  | Raise e => (Raise e, s, deprecation max_distance ++ events run)
  end.
Proof.
  intros Hsim Hplan. by rewrite run_MoveUntilTouch_cases, Hplan, Hsim.
Qed.

(** What an execution of a trajectory of [n] points adds to a run. *)
Lemma execution_read (fw : Framework) (new_traj : Trajectory) (s : Scene) :
  executed (events (execution fw new_traj s))
    = (if Nat.ltb 0 (length new_traj) then [new_traj] else []) /\
  applied (events (execution fw new_traj s)) = [] /\
  reported_reasons (events (execution fw new_traj s)) = [] /\
  outcome (execution fw new_traj s)
    = (if Nat.ltb 0 (length new_traj)
       then fst (ExecuteTrajectory fw new_traj s) else Return tt) /\
  final_scene (execution fw new_traj s)
    = (if Nat.ltb 0 (length new_traj)
       then snd (ExecuteTrajectory fw new_traj s) else s).
Proof.
  unfold execution, GetNumWaypoints. by destruct (Nat.ltb 0 (length new_traj)).
Qed.

(** ** Reading a run's events *)

Lemma executed_app (a b : list Event) : executed (a ++ b) = executed a ++ executed b.
Proof. apply omap_app. Qed.


Lemma reported_reasons_app (a b : list Event) :
  reported_reasons (a ++ b) = reported_reasons a ++ reported_reasons b.
Proof. apply omap_app. Qed.

Lemma deprecation_silent (max_distance : option Q) :
  executed (deprecation max_distance) = [] /\
  applied (deprecation max_distance) = [] /\
  reported_reasons (deprecation max_distance) = [].
Proof. by destruct max_distance. Qed.

Lemma touches_read (manipulator : WAM.WAM) (ws : list Waypoint) :
  executed (map (touch manipulator) ws) = [] /\
  applied (map (touch manipulator) ws) = map joint_values ws /\
  reported_reasons (map (touch manipulator) ws) = [].
Proof.
  induction ws as [|w ws (IH1 & IH2 & IH3)]; [done|].
  repeat split; [exact IH1| |exact IH3].
  change (joint_values w :: applied (map (touch manipulator) ws)
          = joint_values w :: map joint_values ws).
  by rewrite IH2.
Qed.

Lemma termination_record_read (fw : Framework) (s' : Scene) :
  executed [termination_record fw s'] = [] /\
  applied [termination_record fw s'] = [] /\
  reported_reasons [termination_record fw s'] =
    [if CheckCollision fw s' then EnvironmentCollision else SelfCollision].
Proof. unfold termination_record. by destruct (CheckCollision fw s'). Qed.

(** A run of the loop that ends without a halt has drawn every sample. *)
Lemma simulate_complete_inv (fw : Framework) (manipulator : WAM.WAM)
    (traj : Trajectory) (dt : Q) (times : list Q) :
  forall (ws : list Waypoint) (acc new_traj : Trajectory) (s : Scene),
    Forall2 (fun t w => Sample traj t = Return w) times ws ->
    outcome (WAM.simulate fw manipulator traj dt times acc s)
      = Return (false, new_traj) ->
    new_traj = acc ++ stamp dt (length acc) ws /\
    applied (events (WAM.simulate fw manipulator traj dt times acc s))
      = map joint_values ws.
Proof.
  induction times as [|t times IH]; intros ws acc new_traj s Hws Hout.
  - apply Forall2_nil_inv_l in Hws as ->. simpl in *.
    inversion Hout; subst. by rewrite app_nil_r.
  - apply Forall2_cons_inv_l in Hws as (w & ws' & HS & Hws & ->).
    destruct (place manipulator (joint_values w) s) as [s'|] eqn:HP.
    + rewrite (simulate_step _ _ _ _ _ _ _ _ _ _ HS HP) in *.
      destruct (CheckCollision fw s'); [discriminate|].
      destruct (CheckSelfCollision fw s'); [discriminate|].
      specialize (IH ws' (acc ++ [InsertDeltaTime w
                        (if Nat.eqb (length acc) 0 then 0 else dt)])
                     new_traj s' Hws).
      destruct (WAM.simulate _ _ _ _ _ _ s') as [[r s''] ev].
      unfold outcome, events in *. cbn [fst snd] in *.
      destruct (IH Hout) as [-> Happ]. split.
      * rewrite <- app_assoc, length_app. simpl.
        by replace (length acc + 1)%nat with (S (length acc)) by lia.
      * change (joint_values w :: applied ev
                = joint_values w :: map joint_values ws').
        by rewrite Happ.
    + destruct (simulate_step_raises fw manipulator traj dt t times acc s)
        as [e He].
      * intros w' Hw'. rewrite HS in Hw'. by inversion Hw'; subst.
      * rewrite He in Hout. discriminate.
Qed.

(** ** [ServoTo]: steps, velocity and the servo loop *)

Lemma get_dofs_length (indices : list nat) (dofs : list Q) :
  forall vs : list Q,
    get_dofs indices dofs = Some vs -> length vs = length indices.
Proof.
  induction indices as [|i indices IH]; intros vs H; simpl in H.
  - by inversion H.
  - destruct (dofs !! i); [|discriminate].
    destruct (get_dofs indices dofs) as [vs'|]; [|discriminate].
    inversion H; subst. simpl. by rewrite (IH vs' eq_refl).
Qed.

(** Arrays of one length subtract entry by entry. *)
Lemma subtract_same_length (a b : list Q) :
  length a = length b ->
  exists v, numpy.subtract a b = Return v /\ length v = length b.
Proof.
  intros Hlen. unfold numpy.subtract.
  destruct a as [|x [|x' a]], b as [|y [|y' b]]; simpl in Hlen; try discriminate.
  - by exists [].
  - by exists [binary64 (x - y)].
  - simpl. injection Hlen as Hlen. rewrite Hlen, Nat.eqb_refl.
    eexists. split; [reflexivity|]. simpl. do 2 f_equal.
    rewrite length_zip_with. lia.
Qed.

(** Arrays of different lengths, neither of length 1, do not broadcast. *)
Lemma subtract_shape_mismatch (a b : list Q) :
  length a <> length b -> length a <> 1%nat -> length b <> 1%nat ->
  numpy.subtract a b
    = Raise (ValueError "operands could not be broadcast together").
Proof.
  intros Hne Ha Hb. unfold numpy.subtract.
  apply Nat.eqb_neq in Hne.
  destruct a as [|x [|x' a]], b as [|y [|y' b]]; simpl in *; try done;
    by rewrite Hne.
Qed.

(** [int(math.ceil(q))] is the ceiling of [q] as a float. *)
Lemma int_math_ceil (q : python.number) :
  python.int_ (python.math_ceil q) = Qceiling (python.to_float q).
Proof.
  unfold python.math_ceil, python.int_.
  destruct (Qle_bool 0 _); [apply Qfloor_Z|apply Qceiling_Z].
Qed.

(** The floor of a quotient of integers is below its ceiling. *)
Lemma Zdiv_le_Qceiling (n m : Z) :
  m <> 0%Z -> (n / m <= Qceiling (inject_Z n / inject_Z m))%Z.
Proof.
  intros Hm. rewrite <- (Qceiling_Z (n / m)) at 1. apply Qceiling_resp_le.
  destruct (Z_lt_le_dec 0 m) as [Hpos|Hneg].
  - apply Qle_shift_div_l; [by rewrite (Zlt_Qlt 0 m) in Hpos|].
    rewrite <- inject_Z_mult, <- Zle_Qle.
    rewrite Z.mul_comm. apply Z.mul_div_le. lia.
  - assert (m < 0)%Z as Hlt by lia.
    assert (inject_Z n / inject_Z m == inject_Z (- n) / inject_Z (- m)) as ->.
    { rewrite !inject_Z_opp. field. intros E.
      apply Hm. change 0 with (inject_Z 0) in E.
      exact (proj1 (inject_Z_injective m 0) E). }
    rewrite <- (Z.div_opp_opp n m) by exact Hm.
    apply Qle_shift_div_l.
    + change 0 with (inject_Z 0). rewrite <- Zlt_Qlt. lia.
    + rewrite <- inject_Z_mult, <- Zle_Qle.
      rewrite Z.mul_comm. apply Z.mul_div_le. lia.
Qed.

(** The steps are defined as soon as the period is not zero. *)
Lemma ServoTo_steps_defined (duration timeStep : python.number) :
  Qeq_bool (python.to_float timeStep) 0 = false ->
  exists steps : Z, ServoTo_steps duration timeStep = Return steps.
Proof.
  intros Hts. unfold ServoTo_steps, python.div.
  destruct duration as [n|x], timeStep as [m|y]; rewrite ?Hts; try by eexists.
  destruct (Z.eqb_spec m 0) as [->|]; [discriminate|by eexists].
Qed.

(** A move that is short in exact arithmetic is short for the code: a
    quotient of at most one step gives at most one step, on ints and on
    floats. *)
Lemma ServoTo_steps_short (duration timeStep : python.number) (steps : Z) :
  ServoTo_steps duration timeStep = Return steps ->
  (Qceiling (exact_quotient duration timeStep) <= 1)%Z ->
  (steps <= 1)%Z.
Proof.
  unfold ServoTo_steps. intros Hsteps Hshort.
  destruct (python.div duration timeStep) as [q|e] eqn:Hdiv; [|discriminate].
  assert (steps = python.int_ (python.math_ceil q)) as -> by congruence.
  clear Hsteps. rewrite int_math_ceil.
  assert (forall x : Q, (Qceiling x <= 1)%Z -> (Qceiling (binary64 x) <= 1)%Z)
    as Hround.
  { intros x Hx. rewrite <- (Qceiling_Z 1). apply Qceiling_resp_le.
    apply binary64_le_Z; [lia|].
    eapply Qle_trans; [apply Qle_ceiling|]. by rewrite <- Zle_Qle. }
  unfold python.div in Hdiv.
  destruct duration as [n|x], timeStep as [m|y]; cbn [exact_quotient] in Hshort.
  - destruct (Z.eqb_spec m 0) as [|Hm]; [discriminate|].
    injection Hdiv as <-. cbn [python.to_float].
    rewrite <- (Qceiling_Z 1). apply Qceiling_resp_le.
    apply binary64_le_Z; [lia|]. rewrite <- Zle_Qle.
    pose proof (Zdiv_le_Qceiling n m Hm). lia.
  - destruct (Qeq_bool _ 0); [discriminate|]. injection Hdiv as <-.
    by apply Hround.
  - destruct (Qeq_bool _ 0); [discriminate|]. injection Hdiv as <-.
    by apply Hround.
  - destruct (Qeq_bool _ 0); [discriminate|]. injection Hdiv as <-.
    by apply Hround.
Qed.

(** In simulation the servo loop passes every velocity vector of the right
    length on, and sleeps one period after each. *)
Lemma run_servo_loop (self : WAM.WAM) (velocities : list Q) (timeStep : Q)
    (steps : list Z) (s : Scene) :
  WAM.simulated self = true ->
  0 <= timeStep ->
  length velocities = length (WAM.GetArmIndices self) ->
  for_each steps
    (fun _ => WAM.Servo self velocities ;; time_sleep_m timeStep) s
  = (Return tt, s,
     flat_map (fun _ => [servo_simulator_SetVelocity velocities;
                         time_sleep timeStep]) steps).
Proof.
  intros Hsim Hts Hlen. induction steps as [|i steps IH]; [reflexivity|].
  cbn [for_each flat_map]. rewrite run_bind, run_bind.
  unfold WAM.Servo at 1. rewrite Hlen, Nat.eqb_refl, Hsim. simpl.
  unfold time_sleep_m at 1. apply Qle_bool_iff in Hts. rewrite Hts.
  unfold emit at 1. by rewrite IH.
Qed.

(** On the real arm the servo loop stops at its first command. *)
Lemma run_servo_loop_hw (self : WAM.WAM) (velocities : list Q) (timeStep : Q)
    (steps : list Z) (s : Scene) :
  WAM.simulated self = false ->
  length velocities = length (WAM.GetArmIndices self) ->
  for_each steps
    (fun _ => WAM.Servo self velocities ;; time_sleep_m timeStep) s
  = match steps with
    | [] => (Return tt, s, [])
    | _ :: _ =>
        (Raise (NotImplementedError
           "Servoing and velocity control not yetsupported under ros_control."),
         s, [])
    end.
Proof.
  intros Hsim Hlen. destruct steps as [|i steps]; [reflexivity|].
  cbn [for_each]. rewrite run_bind, run_bind.
  unfold WAM.Servo at 1. by rewrite Hlen, Nat.eqb_refl, Hsim.
Qed.

(** [ServoTo] up to its servo loop: the steps, the joint values of the arm
    read twice, the velocity, the collision check. *)
Lemma run_ServoTo (fw : Framework) (self : WAM.WAM) (target : list Q)
    (duration timeStep : python.number) (collisionChecking : bool) (s : Scene)
    (current : list Q) (steps : Z) :
  ServoTo_steps duration timeStep = Return steps ->
  get_dofs (WAM.GetArmIndices self) (DOFValues s) = Some current ->
  WAM.ServoTo fw self target duration timeStep collisionChecking s
  = match numpy.subtract target current with
    | Raise e => (Raise e, s, [])
    | Return velocity =>
        if (if collisionChecking then CollisionCheck fw s target else false)
        then (Return false, s, [])
        else
          (for_each (range 1 steps)
             (fun _ =>
                WAM.Servo self
                  (map (fun v => binary64
                                   (v / python.to_float (python.int steps)))
                       velocity) ;;
                time_sleep_m (python.to_float timeStep)) ;;
           WAM.Servo self (map (fun _ => 0) (WAM.GetArmIndices self)) ;;
           mret true) s
    end.
Proof.
  unfold ServoTo_steps. intros Hsteps Hget. unfold WAM.ServoTo.
  destruct (python.div duration timeStep) as [q|e]; [|discriminate].
  assert (steps = python.int_ (python.math_ceil q)) as -> by congruence.
  clear Hsteps.
  assert (robot_GetDOFValues (WAM.GetArmIndices self) s = (Return current, s, []))
    as Hrun by (unfold robot_GetDOFValues; by rewrite Hget).
  rewrite run_bind. unfold lift at 1.
  rewrite run_bind, Hrun, run_bind, Hrun, run_bind. unfold lift at 1.
  destruct (numpy.subtract target current) as [velocity|e]; [|reflexivity].
  rewrite run_bind. unfold get at 1.
  destruct (if collisionChecking then CollisionCheck fw s target else false);
    cbn [negb]; [reflexivity|].
  match goal with |- _ = ?run => destruct run as [[r s'] ev] end.
  reflexivity.
Qed.

(** ** The two ways a simulated run ends *)

Section Runs.

Variable dt : Q.
Variable fw : Framework.
Variable manipulator : WAM.WAM.
Variable direction : list Q.
Variable distance : Q.
Variable max_distance : option Q.
Variable max_force : Q.
Variable max_torque : option (list Q).
Variable ignore_collisions : option (list string).
Variable s : Scene.
Variable path : Trajectory.

Hypothesis period : 0 < dt.
Hypothesis in_simulation : WAM.simulated manipulator = true.
Hypothesis planned :
  PlanToEndEffectorOffset fw
    (planning_scene manipulator (default [] ignore_collisions) s)
    direction distance (default 1 max_distance) = Return path.

(** A trip at sample [k], the samples before it clear: the forward
    simulation stops there, and the prefix of [k] samples goes to the
    robot. *)
Lemma run_MoveUntilTouch_halts (k : nat) (w : Waypoint) :
  forallb (clear_at fw manipulator s)
    (take k (path_samples (PostProcessPath fw path) dt)) = true ->
  path_samples (PostProcessPath fw path) dt !! k = Some w ->
  trips_at fw manipulator s w = true ->
  exists s',
    place manipulator (joint_values w) s = Some s' /\
    WAM.MoveUntilTouch_dt dt fw manipulator direction distance max_distance
      max_force max_torque ignore_collisions s
    = let prefix :=
        stamp dt 0 (take k (path_samples (PostProcessPath fw path) dt)) in
      (then_return (outcome (execution fw prefix s)) true,
       final_scene (execution fw prefix s),
       deprecation max_distance
         ++ (map (touch manipulator)
               (take k (path_samples (PostProcessPath fw path) dt))
             ++ [touch manipulator w; termination_record fw s'])
         ++ events (execution fw prefix s)).
Proof.
  intros Hclear Hk Htrip.
  rewrite (run_MoveUntilTouch dt fw manipulator direction distance max_distance
             max_force max_torque ignore_collisions s path in_simulation planned).
  cbv zeta.
  destruct (simulate_halts fw manipulator (PostProcessPath fw path) dt s _ _ k w
              (samples_drawn _ dt period) Hclear Hk Htrip) as (s' & HP & ->).
  exists s'. by split.
Qed.

(** No trip at any sample: every sample goes to the robot. *)
Lemma run_MoveUntilTouch_completes :
  forallb (clear_at fw manipulator s)
    (path_samples (PostProcessPath fw path) dt) = true ->
  WAM.MoveUntilTouch_dt dt fw manipulator direction distance max_distance
    max_force max_torque ignore_collisions s
  = let all := stamp dt 0 (path_samples (PostProcessPath fw path) dt) in
    (then_return (outcome (execution fw all s)) false,
     final_scene (execution fw all s),
     deprecation max_distance
       ++ map (touch manipulator) (path_samples (PostProcessPath fw path) dt)
       ++ events (execution fw all s)).
Proof.
  intros Hclear.
  rewrite (run_MoveUntilTouch dt fw manipulator direction distance max_distance
             max_force max_torque ignore_collisions s path in_simulation planned).
  cbv zeta.
  by destruct (simulate_completes fw manipulator (PostProcessPath fw path) dt s
                 _ _ (samples_drawn _ dt period) Hclear) as (s1 & ->).
Qed.

End Runs.

(** The result of a call that ends with an execution of [n] points. *)
Lemma then_return_execution {B : Type} (fw : Framework) (new_traj : Trajectory)
    (s : Scene) (b : B) :
  then_return (outcome (execution fw new_traj s)) b
  = (if Nat.ltb 0 (length new_traj)
     then then_return (fst (ExecuteTrajectory fw new_traj s)) b
     else Return b).
Proof.
  unfold execution, GetNumWaypoints. by destruct (Nat.ltb 0 (length new_traj)).
Qed.

(** ** The number of samples *)


(** ** The statements of the specification *)









(** C4, as the specification states it, fails on the code: with a planner
    and retimer that hand back the empty trajectory, [MoveUntilTouch]
    raises nothing; it returns [False]. *)
Lemma empty_trajectory_counterexample :
  PostProcessPath (world [] 1 false) [] = [] /\
  outcome (WAM.MoveUntilTouch (world [] 1 false) right_arm [1; 0; 0] (1 # 2)
             (Some 1) 5 None None home) = Return false /\
  ~ (exists e : exn,
       outcome (WAM.MoveUntilTouch (world [] 1 false) right_arm [1; 0; 0]
                  (1 # 2) (Some 1) 5 None None home) = Raise e).
Proof.
  split; [reflexivity|]. split; [by vm_compute|].
  intros [e He]. vm_compute in He. discriminate.
Qed.

(** C4, amended.  An empty trajectory is not rejected: the forward
    simulation has nothing to sample, the test on the number of waypoints
    skips [ExecuteTrajectory], and [MoveUntilTouch] returns [False] with
    the scene untouched.  No sample is applied and no trajectory is handed
    to the robot; the only event is the deprecation warning, if due. *)
Theorem empty_trajectory_not_executed (dt : Q) (fw : Framework)
    (manipulator : WAM.WAM) (direction : list Q) (distance : Q)
    (max_distance : option Q) (max_force : Q) (max_torque : option (list Q))
    (ignore_collisions : option (list string)) (s : Scene) (path : Trajectory) :
  WAM.simulated manipulator = true ->
  PlanToEndEffectorOffset fw
    (planning_scene manipulator (default [] ignore_collisions) s)
    direction distance (default 1 max_distance) = Return path ->
  PostProcessPath fw path = [] ->
  WAM.MoveUntilTouch_dt dt fw manipulator direction distance max_distance
    max_force max_torque ignore_collisions s
    = (Return false, s, deprecation max_distance) /\
  executed (events (WAM.MoveUntilTouch_dt dt fw manipulator direction distance
                      max_distance max_force max_torque ignore_collisions s))
    = [] /\
  applied (events (WAM.MoveUntilTouch_dt dt fw manipulator direction distance
                     max_distance max_force max_torque ignore_collisions s))
    = [].
Proof.
  intros Hsim Hplan Hempty.
  rewrite (run_MoveUntilTouch dt fw manipulator direction distance max_distance
             max_force max_torque ignore_collisions s path Hsim Hplan).
  rewrite Hempty. cbv zeta. change (GetDuration []) with 0.
  rewrite arange_empty. simpl. rewrite !app_nil_r.
  split; [reflexivity|]. unfold events. cbn [snd].
  destruct (deprecation_silent max_distance) as (? & ? & _).
  by split.
Qed.

Lemma empty_trajectory_not_executed_witness :
  WAM.MoveUntilTouch (world [] 1 false) right_arm [1; 0; 0] (1 # 2)
    None 5 None None home
  = (Return false, home, deprecation None).
Proof.
  apply (empty_trajectory_not_executed WAM.delta_t (world [] 1 false) right_arm
           [1; 0; 0] (1 # 2) None 5 None None home []); reflexivity.
Defined.

(** C5, as the specification states it, fails on the code in two
    respects.  The outcome carries no traveled distance: two executions
    under a minimum distance of 0.5, one sliding the first joint by 0.3 and
    one by 0.4, both complete, and they return the very same value; so
    nothing computed from the returned value tells the two displacements
    apart.  And the outcome can be a failure: when the robot reports the
    execution of the trajectory as aborted, the call raises, although no
    guard has tripped. *)
Lemma traveled_distance_counterexample :
  displacement (slide (3 # 10)) <> displacement (slide (4 # 10)) /\
  outcome (WAM.MoveUntilTouch (world (slide (3 # 10)) 1 false) right_arm
             [1; 0; 0] (1 # 2) (Some 1) 5 None None home) = Return false /\
  outcome (WAM.MoveUntilTouch (world (slide (4 # 10)) 1 false) right_arm
             [1; 0; 0] (1 # 2) (Some 1) 5 None None home) = Return false /\
  ~ (exists reported : result bool -> list Q,
       reported (outcome (WAM.MoveUntilTouch (world (slide (3 # 10)) 1 false)
                            right_arm [1; 0; 0] (1 # 2) (Some 1) 5 None None
                            home))
         = displacement (slide (3 # 10)) /\
       reported (outcome (WAM.MoveUntilTouch (world (slide (4 # 10)) 1 false)
                            right_arm [1; 0; 0] (1 # 2) (Some 1) 5 None None
                            home))
         = displacement (slide (4 # 10))) /\
  forallb (clear_at (aborting_world (slide (3 # 10)) 1) right_arm home)
    (path_samples (slide (3 # 10)) WAM.delta_t) = true /\
  outcome (WAM.MoveUntilTouch (aborting_world (slide (3 # 10)) 1) right_arm
             [1; 0; 0] (1 # 2) (Some 1) 5 None None home)
    = Raise TrajectoryAborted.
Proof.
  assert (outcome (WAM.MoveUntilTouch (world (slide (3 # 10)) 1 false) right_arm
             [1; 0; 0] (1 # 2) (Some 1) 5 None None home) = Return false)
    as HA by (by vm_compute).
  assert (outcome (WAM.MoveUntilTouch (world (slide (4 # 10)) 1 false) right_arm
             [1; 0; 0] (1 # 2) (Some 1) 5 None None home) = Return false)
    as HB by (by vm_compute).
  assert (displacement (slide (3 # 10)) <> displacement (slide (4 # 10)))
    as Hne by (vm_compute; discriminate).
  split; [exact Hne|]. split; [exact HA|]. split; [exact HB|].
  split; [|split; by vm_compute].
  intros (reported & H3 & H4). rewrite HA in H3. rewrite HB in H4.
  apply Hne. by rewrite <- H3, <- H4.
Qed.

(** C5, amended.  In a simulated execution whose planner has answered,
    whatever the minimum distance asked for and however short the planned
    trajectory, if no collision guard trips at any sample then
    [MoveUntilTouch] logs no halt and hands the robot the trajectory of all
    the samples; once the robot has executed it the call returns [False],
    and an exception of the robot's [ExecuteTrajectory] is passed on.  The
    distance plays no part, and the returned value is the collision flag
    alone. *)
Theorem completes_whatever_the_distance (dt : Q) (fw : Framework)
    (manipulator : WAM.WAM) (direction : list Q) (distance : Q)
    (max_distance : option Q) (max_force : Q) (max_torque : option (list Q))
    (ignore_collisions : option (list string)) (s : Scene) (path : Trajectory) :
  0 < dt ->
  WAM.simulated manipulator = true ->
  PlanToEndEffectorOffset fw
    (planning_scene manipulator (default [] ignore_collisions) s)
    direction distance (default 1 max_distance) = Return path ->
  forallb (clear_at fw manipulator s)
    (path_samples (PostProcessPath fw path) dt) = true ->
  outcome (WAM.MoveUntilTouch_dt dt fw manipulator direction distance
             max_distance max_force max_torque ignore_collisions s)
    = (if Nat.ltb 0 (length (path_samples (PostProcessPath fw path) dt))
       then then_return
              (fst (ExecuteTrajectory fw
                      (stamp dt 0 (path_samples (PostProcessPath fw path) dt))
                      s))
              false
       else Return false) /\
  reported_reasons
    (events (WAM.MoveUntilTouch_dt dt fw manipulator direction distance
               max_distance max_force max_torque ignore_collisions s)) = [] /\
  executed
    (events (WAM.MoveUntilTouch_dt dt fw manipulator direction distance
               max_distance max_force max_torque ignore_collisions s))
    = (if Nat.ltb 0 (length (path_samples (PostProcessPath fw path) dt))
       then [stamp dt 0 (path_samples (PostProcessPath fw path) dt)]
       else []).
Proof.
  intros Hdt Hsim Hplan Hclear.
  rewrite (run_MoveUntilTouch_completes dt fw manipulator direction distance
             max_distance max_force max_torque ignore_collisions s path
             Hdt Hsim Hplan Hclear).
  cbv zeta. rewrite outcome_run, !events_run.
  destruct (deprecation_silent max_distance) as (Hd1 & _ & Hd3).
  destruct (touches_read manipulator
              (path_samples (PostProcessPath fw path) dt)) as (Ht1 & _ & Ht3).
  destruct (execution_read fw
              (stamp dt 0 (path_samples (PostProcessPath fw path) dt)) s)
    as (He1 & _ & He3 & _).
  rewrite stamp_length in He1.
  split; [by rewrite then_return_execution, stamp_length|]. split.
  - by rewrite !reported_reasons_app, Hd3, Ht3, He3.
  - by rewrite !executed_app, Hd1, Ht1, He1.
Qed.

(** The instance of C5 in the specification: a minimum distance of 0.5
    and a trajectory that moves by 0.3 only. *)
Lemma completes_whatever_the_distance_witness :
  displacement (slide (3 # 10)) = [3 # 10; 0; 0; 0; 0; 0; 0] /\
  outcome (WAM.MoveUntilTouch (world (slide (3 # 10)) 1 false) right_arm
             [1; 0; 0] (1 # 2) (Some 1) 5 None None home) = Return false.
Proof.
  split; [by vm_compute|].
  destruct (completes_whatever_the_distance WAM.delta_t
              (world (slide (3 # 10)) 1 false) right_arm [1; 0; 0] (1 # 2)
              (Some 1) 5 None None home (slide (3 # 10))) as (H & _).
  - by vm_compute.
  - reflexivity.
  - reflexivity.
  - by vm_compute.
  - unfold WAM.MoveUntilTouch. rewrite H. by vm_compute.
Defined.

(** C6. Sampling is deterministic: the sample sequence depends on the
    trajectory and the period alone.  Two runs of the forward simulation on
    the same trajectory and period, in any two worlds and from any two
    scenes, each produce an initial segment of the one sequence
    [path_samples]; they agree sample for sample as far as both go, and two
    runs that are not halted produce identical sequences and identical
    output trajectories. *)
Theorem sampling_is_deterministic (traj : Trajectory) (dt : Q)
    (fw1 fw2 : Framework) (m1 m2 : WAM.WAM) (s1 s2 : Scene) :
  0 < dt ->
  sampled fw1 m1 traj dt s1 `prefix_of` map joint_values (path_samples traj dt) /\
  sampled fw2 m2 traj dt s2 `prefix_of` map joint_values (path_samples traj dt) /\
  (forall (i : nat) (q1 q2 : list Q),
     sampled fw1 m1 traj dt s1 !! i = Some q1 ->
     sampled fw2 m2 traj dt s2 !! i = Some q2 -> q1 = q2) /\
  (forall new_traj1 new_traj2 : Trajectory,
     outcome (WAM.forward_simulation fw1 m1 traj dt s1)
       = Return (false, new_traj1) ->
     outcome (WAM.forward_simulation fw2 m2 traj dt s2)
       = Return (false, new_traj2) ->
     sampled fw1 m1 traj dt s1 = sampled fw2 m2 traj dt s2 /\
     new_traj1 = new_traj2).
Proof.
  intros Hdt. pose proof (samples_drawn traj dt Hdt) as Hdraw.
  assert (forall fw m s,
            sampled fw m traj dt s
              `prefix_of` map joint_values (path_samples traj dt)) as Hpre.
  { intros fw m s. unfold sampled. rewrite forward_simulation_run.
    cbv zeta. unfold events at 1. cbn [snd].
    by apply simulate_applied. }
  split; [apply Hpre|]. split; [apply Hpre|]. split.
  - intros i q1 q2 H1 H2.
    pose proof (prefix_lookup_Some _ _ _ _ H1 (Hpre fw1 m1 s1)) as E1.
    pose proof (prefix_lookup_Some _ _ _ _ H2 (Hpre fw2 m2 s2)) as E2.
    congruence.
  - intros nt1 nt2 H1 H2. unfold sampled.
    rewrite forward_simulation_run in H1, H2 |- *.
    rewrite forward_simulation_run.
    cbv zeta in *. unfold outcome at 1, events at 1 in H1.
    unfold outcome at 1, events at 1 in H2.
    unfold events at 1 3. cbn [fst snd] in *.
    destruct (simulate_complete_inv fw1 m1 traj dt _ _ [] nt1 s1 Hdraw H1)
      as [-> ->].
    destruct (simulate_complete_inv fw2 m2 traj dt _ _ [] nt2 s2 Hdraw H2)
      as [-> ->].
    done.
Qed.

(** Two runs of C6: one in free space, from [home], and one that is
    halted at the fifth sample, from a scene with the arm elsewhere. *)
Lemma sampling_is_deterministic_witness :
  sampled (world ten_waypoints 2 false) right_arm ten_waypoints (1 # 10) home
    = map joint_values (path_samples ten_waypoints (1 # 10)) /\
  sampled (world ten_waypoints (4 # 10) true) right_arm ten_waypoints (1 # 10)
      {| DOFValues := [1; 1; 1; 1; 1; 1; 1; 0; 0; 0; 0];
         ActiveDOFIndices := [];
         ActiveManipulator := "";
         DisabledBodies := ∅;
         ft_wrench := ([0; 0; 0], [0; 0; 0]) |}
    `prefix_of` map joint_values (path_samples ten_waypoints (1 # 10)).
Proof.
  split; [by vm_compute|].
  apply (sampling_is_deterministic ten_waypoints (1 # 10)
           (world ten_waypoints 2 false) (world ten_waypoints (4 # 10) true)
           right_arm right_arm home). reflexivity.
Defined.

(** C7. When the arm is not simulated, [Servo] with a velocity for every
    joint of the arm fails with [NotImplementedError], the unsupported
    mode: the scene is left as it was and no velocity command is applied.
    The code knows no controller that accepts streaming velocities. *)
Theorem Servo_fails_when_not_simulated (self : WAM.WAM) (velocities : list Q)
    (s : Scene) :
  WAM.simulated self = false ->
  length velocities = length (WAM.GetArmIndices self) ->
  WAM.Servo self velocities s
    = (Raise (NotImplementedError
         "Servoing and velocity control not yetsupported under ros_control."),
       s, []) /\
  velocity_commands (events (WAM.Servo self velocities s)) = [].
Proof.
  intros Hsim Hlen. unfold WAM.Servo. by rewrite Hlen, Nat.eqb_refl, Hsim.
Qed.

Lemma Servo_fails_when_not_simulated_witness :
  WAM.Servo right_arm_hw (at_ (1 # 2)) home
    = (Raise (NotImplementedError
         "Servoing and velocity control not yetsupported under ros_control."),
       home, []).
Proof.
  apply (Servo_fails_when_not_simulated right_arm_hw (at_ (1 # 2)) home);
    reflexivity.
Defined.




(** The loop and the forward simulation never call [ExecuteTrajectory]. *)
Lemma simulate_executes_nothing (fw : Framework) (manipulator : WAM.WAM)
    (traj : Trajectory) (dt : Q) (times : list Q) :
  forall (acc : Trajectory) (s : Scene),
    executed (events (WAM.simulate fw manipulator traj dt times acc s)) = [].
Proof.
  induction times as [|t times IH]; intros acc s; [reflexivity|].
  destruct (Sample traj t) as [w|e] eqn:HS.
  - destruct (place manipulator (joint_values w) s) as [s'|] eqn:HP.
    + rewrite (simulate_step _ _ _ _ _ _ _ _ _ _ HS HP).
      destruct (CheckCollision fw s'); [reflexivity|].
      destruct (CheckSelfCollision fw s'); [reflexivity|].
      specialize (IH (acc ++ [InsertDeltaTime w
                        (if Nat.eqb (length acc) 0 then 0 else dt)]) s').
      by destruct (WAM.simulate _ _ _ _ _ _ s') as [[r s''] ev].
    + destruct (simulate_step_raises fw manipulator traj dt t times acc s)
        as [e ->]; [|reflexivity].
      intros w' Hw'. rewrite HS in Hw'. by inversion Hw'; subst.
  - destruct (simulate_step_raises fw manipulator traj dt t times acc s)
      as [e' ->]; [|reflexivity].
    intros w' Hw'. rewrite HS in Hw'. discriminate.
Qed.

(** C9. The forward-simulation phase leaves the robot as it found it: the
    loop that applies the samples and checks collisions runs under a saver
    of the link transformations, so when the block is left, with or
    without a collision and even on an exception, the scene is the initial
    one, and the block itself never executes a trajectory.  After it the
    only motion command of [MoveUntilTouch] is the execution of the output
    trajectory, when that is not empty; the scene the call ends in is the
    one that execution leaves, started from the initial scene. *)
Theorem forward_simulation_restores_robot (dt : Q) (fw : Framework)
    (manipulator : WAM.WAM) (traj : Trajectory) (direction : list Q)
    (distance : Q) (max_distance : option Q) (max_force : Q)
    (max_torque : option (list Q)) (ignore_collisions : option (list string))
    (s : Scene) :
  final_scene (WAM.forward_simulation fw manipulator traj dt s) = s /\
  executed (events (WAM.forward_simulation fw manipulator traj dt s)) = [] /\
  (WAM.simulated manipulator = true ->
   PlanToEndEffectorOffset fw
     (planning_scene manipulator (default [] ignore_collisions) s)
     direction distance (default 1 max_distance) = Return traj ->
   forall (is_collision : bool) (new_traj : Trajectory),
     outcome (WAM.forward_simulation fw manipulator (PostProcessPath fw traj)
                dt s) = Return (is_collision, new_traj) ->
     executed (events (WAM.MoveUntilTouch_dt dt fw manipulator direction
                         distance max_distance max_force max_torque
                         ignore_collisions s))
       = (if Nat.ltb 0 (GetNumWaypoints new_traj) then [new_traj] else []) /\
     final_scene (WAM.MoveUntilTouch_dt dt fw manipulator direction distance
                    max_distance max_force max_torque ignore_collisions s)
       = (if Nat.ltb 0 (GetNumWaypoints new_traj)
          then snd (ExecuteTrajectory fw new_traj s)
          else s)).
Proof.
  split; [by rewrite forward_simulation_run|]. split.
  { rewrite forward_simulation_run. cbv zeta. rewrite events_run.
    apply simulate_executes_nothing. }
  intros Hsim Hplan b nt Hout.
  rewrite (run_MoveUntilTouch dt fw manipulator direction distance max_distance
             max_force max_torque ignore_collisions s traj Hsim Hplan).
  rewrite forward_simulation_run in Hout. cbv zeta in *.
  rewrite outcome_run in Hout. rewrite Hout.
  rewrite events_run, final_scene_run.
  destruct (deprecation_silent max_distance) as (Hd & _ & _).
  destruct (execution_read fw nt s) as (He & _ & _ & _ & Hs).
  split; [|exact Hs].
  by rewrite !executed_app, Hd, simulate_executes_nothing, He.
Qed.

(** C9 on the halted run of C1: left to itself the loop ends with the arm
    at the tripping sample; under the saver the scene is [home] again, and
    it is the execution of the four-sample prefix that moves the arm. *)
Lemma forward_simulation_restores_robot_witness :
  final_scene (WAM.simulate (world ten_waypoints (4 # 10) false) right_arm
                 ten_waypoints (1 # 10)
                 (numpy.arange 0 (GetDuration ten_waypoints) (1 # 10)) [] home)
    <> home /\
  final_scene (WAM.forward_simulation (world ten_waypoints (4 # 10) false)
                 right_arm ten_waypoints (1 # 10) home) = home /\
  executed (events (WAM.MoveUntilTouch_dt (1 # 10)
                      (world ten_waypoints (4 # 10) false) right_arm [1; 0; 0]
                      (1 # 2) (Some 1) 5 None None home))
    = [stamp (1 # 10) 0 (take 4 (path_samples ten_waypoints (1 # 10)))] /\
  final_scene (WAM.MoveUntilTouch_dt (1 # 10)
                 (world ten_waypoints (4 # 10) false) right_arm [1; 0; 0]
                 (1 # 2) (Some 1) 5 None None home)
    <> home.
Proof.
  destruct (forward_simulation_restores_robot (1 # 10)
              (world ten_waypoints (4 # 10) false) right_arm ten_waypoints
              [1; 0; 0] (1 # 2) (Some 1) 5 None None home)
    as (H1 & _ & H3).
  split; [vm_compute; discriminate|]. split; [exact H1|].
  destruct (H3 eq_refl eq_refl true
              (stamp (1 # 10) 0 (take 4 (path_samples ten_waypoints (1 # 10)))))
    as [He Hs]; [by vm_compute|].
  split; [rewrite He; reflexivity|].
  rewrite Hs. vm_compute. discriminate.
Defined.

(** C10. [MoveHand] commands every joint that is left unspecified to the
    value the hand has when the call is made, and every specified joint to
    the value given; the scene itself is not written. *)
Theorem MoveHand_holds_unspecified_joints (self : BarrettHand.BarrettHand)
    (f1 f2 f3 spread timeout : option Q) (s : Scene) (c0 c1 c2 c3 : Q) :
  DOFValues s !! BarrettHand.j01 self = Some c0 ->
  DOFValues s !! BarrettHand.j11 self = Some c1 ->
  DOFValues s !! BarrettHand.j21 self = Some c2 ->
  DOFValues s !! BarrettHand.j00 self = Some c3 ->
  BarrettHand.MoveHand self f1 f2 f3 spread timeout s
    = (Return tt, s,
       [controller_SetDesired
          [default c0 f1; default c1 f2; default c2 f3; default c3 spread];
        util_WaitForControllers timeout]).
Proof.
  intros H0 H1 H2 H3. unfold BarrettHand.MoveHand.
  rewrite run_bind.
  assert (BarrettHand.GetDOFValues self s = (Return [c0; c1; c2; c3], s, []))
    as ->.
  { unfold BarrettHand.GetDOFValues, robot_GetDOFValues, BarrettHand.GetIndices,
      BarrettHand.GetFingerIndices, BarrettHand.GetSpreadIndex.
    simpl. by rewrite H0, H1, H2, H3. }
  by destruct f1, f2, f3, spread.
Qed.

Lemma MoveHand_holds_unspecified_joints_witness :
  BarrettHand.MoveHand right_hand (Some 2) None None (Some (314 # 100)) None home
    = (Return tt, home,
       [controller_SetDesired [2; 1 # 2; 3 # 2; 314 # 100];
        util_WaitForControllers None]).
Proof.
  apply (MoveHand_holds_unspecified_joints right_hand (Some 2) None None
           (Some (314 # 100)) None home 1 (1 # 2) (3 # 2) 3); reflexivity.
Defined.

(** ** [MoveUntilTouch] at the source's own period *)

(** With [delta_t = 0.01] the one-second trajectory has 100 samples; an
    obstacle reached at the fifth of them (0.04 s) halts the motion with
    the four samples before it as the executed trajectory. *)
Example MoveUntilTouch_trip_at_fifth_sample :
  length (path_samples ten_waypoints WAM.delta_t) = 100%nat /\
  outcome (WAM.MoveUntilTouch (world ten_waypoints (4 # 100) false) right_arm
             [1; 0; 0] (1 # 2) (Some 1) 5 None None home) = Return true /\
  map length
    (executed (events (WAM.MoveUntilTouch (world ten_waypoints (4 # 100) false)
                         right_arm [1; 0; 0] (1 # 2) (Some 1) 5 None None
                         home))) = [4%nat] /\
  reported_reasons
    (events (WAM.MoveUntilTouch (world ten_waypoints (4 # 100) false) right_arm
               [1; 0; 0] (1 # 2) (Some 1) 5 None None home))
    = [EnvironmentCollision].
Proof. by vm_compute. Qed.

(** The number of samples is decided by the double quotient: 0.07 s at
    the period of 0.01 s gives eight samples and 0.05 s gives five, where
    the exact quotients of these doubles have the ceilings 8 and 6. *)
Example arange_of_doubles :
  length (numpy.arange 0 (binary64 (7 # 100)) WAM.delta_t) = 8%nat /\
  length (numpy.arange 0 (binary64 (5 # 100)) WAM.delta_t) = 5%nat /\
  Qceiling (binary64 (7 # 100) / WAM.delta_t) = 8%Z /\
  Qceiling (binary64 (5 # 100) / WAM.delta_t) = 6%Z.
Proof. by vm_compute. Qed.

(** What the robot does with the prefix decides how a halted call ends:
    a robot that reports the execution as aborted makes it raise
    [TrajectoryAborted], and a [HERBRobot] whose arm is the [WAM] of this
    module makes it raise the [NotImplementedError] of
    [ClearTrajectoryStatus], before anything is executed. *)
Example MoveUntilTouch_when_the_execution_fails :
  outcome (WAM.MoveUntilTouch (aborting_world ten_waypoints (4 # 100)) right_arm
             [1; 0; 0] (1 # 2) (Some 1) 5 None None home)
    = Raise TrajectoryAborted /\
  WAM.MoveUntilTouch (own_arm_world ten_waypoints (4 # 100)) right_arm
    [1; 0; 0] (1 # 2) (Some 1) 5 None None home
    = (Raise (NotImplementedError
         "ClearTrajectoryStatus not supported on manipulator."),
       home,
       events (WAM.MoveUntilTouch (world ten_waypoints (4 # 100) false)
                 right_arm [1; 0; 0] (1 # 2) (Some 1) 5 None None home)).
Proof. by vm_compute. Qed.

(** On the real robot [MoveUntilTouch] plans and then gives up. *)
Example MoveUntilTouch_on_hardware :
  WAM.MoveUntilTouch (world ten_waypoints 2 false) right_arm_hw [1; 0; 0]
    (1 # 2) (Some 1) 5 None None home
  = (Raise (NotImplementedError
       "MoveUntilTouch not yet implemented under ros_control."), home, []).
Proof. by vm_compute. Qed.

(** The force/torque reading of the hand: the topic's wrench on a real
    sensor, zeros on a simulated one. *)
Example GetForceTorque_reads_wrench :
  outcome (BarrettHand.GetForceTorque right_hand home)
    = Return ([10; 0; 0], [0; 0; 0]).
Proof. reflexivity. Qed.

(** * Further properties of the code *)

(** ** [MoveUntilTouch]: planning, mode and the trajectory it builds *)

(** X1. The planning block of [MoveUntilTouch] is transparent.  The
    planner is asked once, on a scene in which the arm is the active
    manipulator and every body of [ignore_collisions] is disabled beside
    the ones that already were; whatever it answers, the block emits no
    event and leaves the scene, the enabled state of every body included,
    exactly as it found it. *)
Theorem planning_block_is_transparent (fw : Framework) (manipulator : WAM.WAM)
    (direction : list Q) (distance max_distance : Q)
    (ignore_collisions : list string) (s : Scene) :
  outcome (WAM.plan fw manipulator direction distance max_distance
             ignore_collisions s)
    = PlanToEndEffectorOffset fw
        (planning_scene manipulator ignore_collisions s)
        direction distance max_distance /\
  final_scene (WAM.plan fw manipulator direction distance max_distance
                 ignore_collisions s) = s /\
  events (WAM.plan fw manipulator direction distance max_distance
            ignore_collisions s) = [] /\
  (forall name : string,
     name ∈ DisabledBodies (planning_scene manipulator ignore_collisions s)
     <-> name ∈ ignore_collisions \/ name ∈ DisabledBodies s) /\
  ActiveManipulator (planning_scene manipulator ignore_collisions s)
    = WAM.namespace manipulator /\
  ActiveDOFIndices (planning_scene manipulator ignore_collisions s)
    = WAM.GetArmIndices manipulator /\
  DOFValues (planning_scene manipulator ignore_collisions s) = DOFValues s.
Proof.
  rewrite run_plan. repeat split; try reflexivity.
  - intros H. simpl in H. apply elem_of_union in H as [H|H]; [left|by right].
    by apply elem_of_list_to_set in H.
  - intros [H|H]; simpl; apply elem_of_union; [left|by right].
    by apply elem_of_list_to_set.
Qed.

(** X2. Without simulation [MoveUntilTouch] never moves anything: it
    plans first, so a planner failure surfaces as the planner's own
    exception, and once the planner has answered it raises
    [NotImplementedError].  Either way the scene is unchanged and the only
    event is the deprecation warning, if due. *)
Theorem MoveUntilTouch_needs_simulation (dt : Q) (fw : Framework)
    (manipulator : WAM.WAM) (direction : list Q) (distance : Q)
    (max_distance : option Q) (max_force : Q) (max_torque : option (list Q))
    (ignore_collisions : option (list string)) (s : Scene) :
  WAM.simulated manipulator = false ->
  WAM.MoveUntilTouch_dt dt fw manipulator direction distance max_distance
    max_force max_torque ignore_collisions s
  = (Raise
       match PlanToEndEffectorOffset fw
               (planning_scene manipulator (default [] ignore_collisions) s)
               direction distance (default 1 max_distance) with
       | Return _ =>
           NotImplementedError
             "MoveUntilTouch not yet implemented under ros_control."
       | Raise e => e
       end,
     s, deprecation max_distance).
Proof.
  intros Hsim. rewrite run_MoveUntilTouch_cases, Hsim.
  by destruct (PlanToEndEffectorOffset fw _ direction distance _).
Qed.

Lemma MoveUntilTouch_needs_simulation_witness :
  WAM.MoveUntilTouch cluttered_world right_arm_hw [1; 0; 0] (1 # 2) None 5
    None (Some ["cup"]) home
  = (Raise (PlanningError "no straight-line path"), home, deprecation None) /\
  WAM.MoveUntilTouch (world ten_waypoints 2 false) right_arm_hw [1; 0; 0]
    (1 # 2) (Some 1) 5 None None home
  = (Raise (NotImplementedError
       "MoveUntilTouch not yet implemented under ros_control."), home, []).
Proof.
  split.
  - apply (MoveUntilTouch_needs_simulation WAM.delta_t cluttered_world
             right_arm_hw [1; 0; 0] (1 # 2) None 5 None (Some ["cup"]) home).
    reflexivity.
  - apply (MoveUntilTouch_needs_simulation WAM.delta_t
             (world ten_waypoints 2 false) right_arm_hw [1; 0; 0] (1 # 2)
             (Some 1) 5 None None home).
    reflexivity.
Defined.

(** X3. When the environment is clear at a sample and the robot is in
    collision with itself there, the samples before it being clear,
    [MoveUntilTouch] halts there: the reason logged is the self-collision,
    not an environment collision, and once the robot has executed the
    prefix of clear samples the call returns [True] (an exception of the
    execution is passed on). *)
Theorem self_collision_reported (dt : Q) (fw : Framework)
    (manipulator : WAM.WAM) (direction : list Q) (distance : Q)
    (max_distance : option Q) (max_force : Q) (max_torque : option (list Q))
    (ignore_collisions : option (list string)) (s : Scene)
    (path : Trajectory) (k : nat) (w : Waypoint) :
  0 < dt ->
  WAM.simulated manipulator = true ->
  PlanToEndEffectorOffset fw
    (planning_scene manipulator (default [] ignore_collisions) s)
    direction distance (default 1 max_distance) = Return path ->
  forallb (clear_at fw manipulator s)
    (take k (path_samples (PostProcessPath fw path) dt)) = true ->
  path_samples (PostProcessPath fw path) dt !! k = Some w ->
  env_collision_at fw manipulator s w = false ->
  self_collision_at fw manipulator s w = true ->
  reported_reasons
    (events (WAM.MoveUntilTouch_dt dt fw manipulator direction distance
               max_distance max_force max_torque ignore_collisions s))
    = [SelfCollision] /\
  outcome (WAM.MoveUntilTouch_dt dt fw manipulator direction distance
             max_distance max_force max_torque ignore_collisions s)
    = (if Nat.ltb 0 k
       then then_return
              (fst (ExecuteTrajectory fw
                      (stamp dt 0
                         (take k (path_samples (PostProcessPath fw path) dt)))
                      s))
              true
       else Return true).
Proof.
  intros Hdt Hsim Hplan Hclear Hk Henv Hself.
  assert (trips_at fw manipulator s w = true) as Htrip
    by (unfold trips_at; by rewrite Henv, Hself).
  destruct (run_MoveUntilTouch_halts dt fw manipulator direction distance
              max_distance max_force max_torque ignore_collisions s path
              Hdt Hsim Hplan k w Hclear Hk Htrip) as (s' & HP & ->).
  cbv zeta. rewrite outcome_run, events_run.
  unfold env_collision_at in Henv. rewrite HP in Henv.
  destruct (deprecation_silent max_distance) as (_ & _ & Hd).
  destruct (touches_read manipulator
              (take k (path_samples (PostProcessPath fw path) dt)))
    as (_ & _ & Ht).
  destruct (termination_record_read fw s') as (_ & _ & Hr).
  destruct (execution_read fw
              (stamp dt 0 (take k (path_samples (PostProcessPath fw path) dt))) s)
    as (_ & _ & He & _).
  rewrite Henv in Hr. split.
  - rewrite !reported_reasons_app, Hd, Ht, He.
    change (reported_reasons [touch manipulator w; termination_record fw s'])
      with (reported_reasons [termination_record fw s']).
    by rewrite Hr.
  - rewrite then_return_execution, stamp_length, length_take_le; [done|].
    apply lookup_lt_Some in Hk. lia.
Qed.

Lemma self_collision_reported_witness :
  reported_reasons
    (events (WAM.MoveUntilTouch_dt (1 # 10) (folding_world ten_waypoints (4 # 10))
               right_arm [1; 0; 0] (1 # 2) (Some 1) 5 None None home))
    = [SelfCollision] /\
  outcome (WAM.MoveUntilTouch_dt (1 # 10) (folding_world ten_waypoints (4 # 10))
             right_arm [1; 0; 0] (1 # 2) (Some 1) 5 None None home)
    = Return true.
Proof.
  destruct (self_collision_reported (1 # 10)
              (folding_world ten_waypoints (4 # 10))
              right_arm [1; 0; 0] (1 # 2) (Some 1) 5 None None home
              ten_waypoints 4
              (default (mkWaypoint 0 [])
                 (path_samples ten_waypoints (1 # 10) !! 4%nat)))
    as [H1 H2].
  - reflexivity.
  - reflexivity.
  - reflexivity.
  - vm_compute. reflexivity.
  - vm_compute. reflexivity.
  - vm_compute. reflexivity.
  - vm_compute. reflexivity.
  - split; [exact H1|]. rewrite H2. by vm_compute.
Defined.

(** Whatever the loop returns, the trajectory it has built is an initial
    segment of the samples, re-timed. *)
Lemma simulate_result_shape (fw : Framework) (manipulator : WAM.WAM)
    (traj : Trajectory) (dt : Q) (times : list Q) :
  forall (ws : list Waypoint) (acc new_traj : Trajectory) (s : Scene)
         (is_collision : bool),
    Forall2 (fun t w => Sample traj t = Return w) times ws ->
    outcome (WAM.simulate fw manipulator traj dt times acc s)
      = Return (is_collision, new_traj) ->
    exists j : nat,
      (j <= length ws)%nat /\
      new_traj = acc ++ stamp dt (length acc) (take j ws) /\
      (is_collision = false -> j = length ws).
Proof.
  induction times as [|t times IH]; intros ws acc nt s b Hws Hout.
  - apply Forall2_nil_inv_l in Hws as ->. simpl in Hout.
    inversion Hout; subst. exists 0%nat. by rewrite app_nil_r.
  - apply Forall2_cons_inv_l in Hws as (w & ws' & HS & Hws & ->).
    destruct (place manipulator (joint_values w) s) as [s'|] eqn:HP.
    + rewrite (simulate_step _ _ _ _ _ _ _ _ _ _ HS HP) in Hout.
      destruct (CheckCollision fw s').
      { inversion Hout; subst. exists 0%nat. simpl.
        rewrite app_nil_r. repeat split; [lia|done]. }
      destruct (CheckSelfCollision fw s').
      { inversion Hout; subst. exists 0%nat. simpl.
        rewrite app_nil_r. repeat split; [lia|done]. }
      specialize (IH ws' (acc ++ [InsertDeltaTime w
                        (if Nat.eqb (length acc) 0 then 0 else dt)])
                     nt s' b Hws).
      destruct (WAM.simulate _ _ _ _ _ _ s') as [[r s''] ev].
      unfold outcome in *. cbn [fst] in *.
      destruct (IH Hout) as (j & Hj & -> & Hb).
      exists (S j). simpl. split; [lia|]. split; [|intros E; by rewrite (Hb E)].
      rewrite <- app_assoc, length_app. simpl.
      by replace (length acc + 1)%nat with (S (length acc)) by lia.
    + destruct (simulate_step_raises fw manipulator traj dt t times acc s)
        as [e He].
      * intros w' Hw'. rewrite HS in Hw'. by inversion Hw'; subst.
      * rewrite He in Hout. discriminate.
Qed.

Lemma stamp_later_duration (dt : Q) (ws : list Waypoint) :
  forall n : nat,
    GetDuration (stamp dt (S n) ws) == inject_Z (Z.of_nat (length ws)) * dt.
Proof.
  induction ws as [|w ws IH]; intros n.
  - simpl. ring.
  - cbn [stamp GetDuration fold_right InsertDeltaTime deltatime Nat.eqb].
    fold (GetDuration (stamp dt (S (S n)) ws)). rewrite IH.
    cbn [length]. rewrite Nat2Z.inj_succ. unfold Z.succ.
    rewrite inject_Z_plus. ring.
Qed.

Lemma stamp_duration (dt : Q) (ws : list Waypoint) :
  GetDuration (stamp dt 0 ws)
  == inject_Z (Z.of_nat (length ws - 1)) * dt.
Proof.
  destruct ws as [|w ws]; [simpl; ring|].
  cbn [stamp GetDuration fold_right InsertDeltaTime deltatime Nat.eqb].
  fold (GetDuration (stamp dt 1 ws)). rewrite stamp_later_duration.
  cbn [length]. replace (S (length ws) - 1)%nat with (length ws) by lia.
  ring.
Qed.

(** X4. Whatever the collision checkers answer, the trajectory the
    forward simulation builds is an initial segment of the path samples,
    in order, re-timed with delta time 0 for the first point and [dt] for
    every later one: [n] points last [(n - 1) * dt].  When no collision is
    reported it holds every sample. *)
Theorem output_trajectory_is_retimed_prefix (fw : Framework)
    (manipulator : WAM.WAM) (traj : Trajectory) (dt : Q) (s : Scene)
    (is_collision : bool) (new_traj : Trajectory) :
  0 < dt ->
  outcome (WAM.forward_simulation fw manipulator traj dt s)
    = Return (is_collision, new_traj) ->
  new_traj = stamp dt 0 (take (length new_traj) (path_samples traj dt)) /\
  (length new_traj <= length (path_samples traj dt))%nat /\
  (is_collision = false -> length new_traj = length (path_samples traj dt)) /\
  GetDuration new_traj == inject_Z (Z.of_nat (length new_traj - 1)) * dt.
Proof.
  intros Hdt Hout. rewrite forward_simulation_run in Hout. cbv zeta in Hout.
  unfold outcome at 1 in Hout. cbn [fst] in Hout.
  destruct (simulate_result_shape fw manipulator traj dt _ _ [] new_traj s
              is_collision (samples_drawn traj dt Hdt) Hout)
    as (j & Hj & Hnt & Hb).
  simpl in Hnt.
  assert (length new_traj = j) as Hlen.
  { rewrite Hnt, stamp_length. by apply length_take_le. }
  rewrite Hlen. split; [exact Hnt|]. split; [exact Hj|]. split; [exact Hb|].
  rewrite Hnt at 1. rewrite stamp_duration.
  by rewrite length_take_le by exact Hj.
Qed.

Lemma output_trajectory_is_retimed_prefix_witness :
  GetDuration (stamp (1 # 10) 0 (take 4 (path_samples ten_waypoints (1 # 10))))
  == inject_Z (Z.of_nat
       (length (stamp (1 # 10) 0
                  (take 4 (path_samples ten_waypoints (1 # 10)))) - 1))
     * (1 # 10).
Proof.
  apply (output_trajectory_is_retimed_prefix (world ten_waypoints (4 # 10) false)
           right_arm ten_waypoints (1 # 10) home true
           (stamp (1 # 10) 0 (take 4 (path_samples ten_waypoints (1 # 10))))).
  - reflexivity.
  - vm_compute. reflexivity.
Defined.

(** ** [ServoTo]: what reaches the servo loop *)

(** X5. [ServoTo] in simulation, towards a collision-free target with one
    entry per joint and with a period that is not negative, returns [True]
    after [steps - 1] commands of one and the same velocity, each followed
    by a sleep of one period, and a final command of zero velocity; [steps]
    is the [int(math.ceil(duration / timeStep))] of the code, with Python
    2's division.  The scene itself is not written. *)
Theorem ServoTo_commands (fw : Framework) (self : WAM.WAM) (target : list Q)
    (duration timeStep : python.number) (collisionChecking : bool) (s : Scene)
    (current : list Q) (steps : Z) :
  WAM.simulated self = true ->
  ServoTo_steps duration timeStep = Return steps ->
  0 <= python.to_float timeStep ->
  get_dofs (WAM.GetArmIndices self) (DOFValues s) = Some current ->
  length target = length current ->
  (if collisionChecking then CollisionCheck fw s target else false) = false ->
  exists velocities : list Q,
    WAM.ServoTo fw self target duration timeStep collisionChecking s
    = (Return true, s,
       flat_map (fun _ => [servo_simulator_SetVelocity velocities;
                           time_sleep (python.to_float timeStep)])
                (range 1 steps)
       ++ [servo_simulator_SetVelocity
             (map (fun _ => 0) (WAM.GetArmIndices self))]).
Proof.
  intros Hsim Hsteps Hts Hget Hlen Hfree.
  rewrite (run_ServoTo fw self target duration timeStep collisionChecking s
             current steps Hsteps Hget).
  destruct (subtract_same_length target current Hlen) as (v & -> & Hvlen).
  rewrite Hfree.
  exists (map (fun x => binary64 (x / python.to_float (python.int steps))) v).
  rewrite run_bind, run_servo_loop; [|exact Hsim|exact Hts|].
  - rewrite run_bind. unfold WAM.Servo at 1.
    rewrite length_map, Nat.eqb_refl, Hsim. simpl. by rewrite ?app_nil_r.
  - rewrite length_map, Hvlen. by apply get_dofs_length in Hget.
Qed.

Lemma ServoTo_commands_witness :
  exists velocities : list Q,
    WAM.ServoTo (world [] 2 false) right_arm (at_ 1) (python.int 1)
      (python.float (binary64 (5 # 100))) true home
    = (Return true, home,
       flat_map (fun _ => [servo_simulator_SetVelocity velocities;
                           time_sleep (binary64 (5 # 100))])
                (range 1 20)
       ++ [servo_simulator_SetVelocity
             (map (fun _ => 0) (WAM.GetArmIndices right_arm))]).
Proof.
  apply (ServoTo_commands (world [] 2 false) right_arm (at_ 1) (python.int 1)
           (python.float (binary64 (5 # 100))) true home (at_ 0) 20);
    by vm_compute.
Defined.

(** X8. A target whose length is neither 1 nor the number of joints of a
    multi-joint arm does not broadcast against the arm's joint values:
    [ServoTo] raises numpy's [ValueError] before it checks collisions or
    sends anything, simulated or not. *)
Theorem ServoTo_shape_mismatch (fw : Framework) (self : WAM.WAM)
    (target : list Q) (duration timeStep : python.number)
    (collisionChecking : bool) (s : Scene) (current : list Q) :
  Qeq_bool (python.to_float timeStep) 0 = false ->
  get_dofs (WAM.GetArmIndices self) (DOFValues s) = Some current ->
  length target <> length current ->
  length target <> 1%nat -> length current <> 1%nat ->
  WAM.ServoTo fw self target duration timeStep collisionChecking s
  = (Raise (ValueError "operands could not be broadcast together"), s, []).
Proof.
  intros Hts Hget Hne Ht Hc.
  destruct (ServoTo_steps_defined duration timeStep Hts) as [steps Hsteps].
  rewrite (run_ServoTo fw self target duration timeStep collisionChecking s
             current steps Hsteps Hget).
  by rewrite (subtract_shape_mismatch target current Hne Ht Hc).
Qed.

Lemma ServoTo_shape_mismatch_witness :
  WAM.ServoTo (world [] 2 false) right_arm [1; 1; 1] (python.int 1)
    (python.float (binary64 (5 # 100))) true home
  = (Raise (ValueError "operands could not be broadcast together"), home, []).
Proof.
  apply (ServoTo_shape_mismatch (world [] 2 false) right_arm [1; 1; 1]
           (python.int 1) (python.float (binary64 (5 # 100))) true home
           (at_ 0));
    first [by vm_compute | simpl; lia].
Defined.

(** X6. When the collision check of the target reports a collision,
    [ServoTo] returns [False] and sends nothing to the servo loop, not
    even the zero velocity. *)
Theorem ServoTo_target_in_collision (fw : Framework) (self : WAM.WAM)
    (target : list Q) (duration timeStep : python.number) (s : Scene)
    (current velocity : list Q) :
  Qeq_bool (python.to_float timeStep) 0 = false ->
  get_dofs (WAM.GetArmIndices self) (DOFValues s) = Some current ->
  numpy.subtract target current = Return velocity ->
  CollisionCheck fw s target = true ->
  WAM.ServoTo fw self target duration timeStep true s = (Return false, s, []).
Proof.
  intros Hts Hget Hsub Hcol.
  destruct (ServoTo_steps_defined duration timeStep Hts) as [steps Hsteps].
  rewrite (run_ServoTo fw self target duration timeStep true s
             current steps Hsteps Hget).
  by rewrite Hsub, Hcol.
Qed.

Lemma ServoTo_target_in_collision_witness :
  WAM.ServoTo cluttered_world right_arm (at_ 1) (python.int 1)
    (python.float (binary64 (5 # 100))) true home
  = (Return false, home, []).
Proof.
  apply (ServoTo_target_in_collision cluttered_world right_arm (at_ 1)
           (python.int 1) (python.float (binary64 (5 # 100))) home
           (at_ 0) (at_ 1)); by vm_compute.
Defined.

(** X7. On the real arm [ServoTo] cannot servo: towards a collision-free
    target with one entry per joint it raises the [NotImplementedError] of
    [Servo] at its first command, whatever the duration, and no velocity
    and no sleep is issued. *)
Theorem ServoTo_needs_simulation (fw : Framework) (self : WAM.WAM)
    (target : list Q) (duration timeStep : python.number)
    (collisionChecking : bool) (s : Scene) (current : list Q) :
  WAM.simulated self = false ->
  Qeq_bool (python.to_float timeStep) 0 = false ->
  get_dofs (WAM.GetArmIndices self) (DOFValues s) = Some current ->
  length target = length current ->
  (if collisionChecking then CollisionCheck fw s target else false) = false ->
  WAM.ServoTo fw self target duration timeStep collisionChecking s
  = (Raise (NotImplementedError
       "Servoing and velocity control not yetsupported under ros_control."),
     s, []).
Proof.
  intros Hsim Hts Hget Hlen Hfree.
  destruct (ServoTo_steps_defined duration timeStep Hts) as [steps Hsteps].
  rewrite (run_ServoTo fw self target duration timeStep collisionChecking s
             current steps Hsteps Hget).
  destruct (subtract_same_length target current Hlen) as (v & -> & Hvlen).
  rewrite Hfree.
  rewrite run_bind, run_servo_loop_hw; [|exact Hsim|].
  - destruct (range 1 _); [|reflexivity].
    rewrite run_bind. unfold WAM.Servo at 1.
    by rewrite length_map, Nat.eqb_refl, Hsim.
  - rewrite length_map, Hvlen. by apply get_dofs_length in Hget.
Qed.

Lemma ServoTo_needs_simulation_witness :
  WAM.ServoTo (world [] 2 false) right_arm_hw (at_ 1) (python.int 1)
    (python.float (binary64 (5 # 100))) true home
  = (Raise (NotImplementedError
       "Servoing and velocity control not yetsupported under ros_control."),
     home, []).
Proof.
  apply (ServoTo_needs_simulation (world [] 2 false) right_arm_hw (at_ 1)
           (python.int 1) (python.float (binary64 (5 # 100))) true home
           (at_ 0)); by vm_compute.
Defined.

(** X9. A target of exactly one entry is not rejected: numpy broadcasts it
    against the joint values of the arm, so in simulation, with a period
    that is not negative, [ServoTo] servoes every joint towards that one
    value, with the double quotient of [x - current_j] by [steps] as the
    velocity of joint [j], and returns [True]; [steps] is the
    [int(math.ceil(duration / timeStep))] of the code. *)
Theorem ServoTo_broadcasts_single_target (fw : Framework) (self : WAM.WAM)
    (x : Q) (duration timeStep : python.number) (collisionChecking : bool)
    (s : Scene) (current : list Q) (steps : Z) :
  WAM.simulated self = true ->
  ServoTo_steps duration timeStep = Return steps ->
  0 <= python.to_float timeStep ->
  get_dofs (WAM.GetArmIndices self) (DOFValues s) = Some current ->
  (if collisionChecking then CollisionCheck fw s [x] else false) = false ->
  WAM.ServoTo fw self [x] duration timeStep collisionChecking s
  = (Return true, s,
     flat_map (fun _ =>
                 [servo_simulator_SetVelocity
                    (map (fun c => binary64
                                     (binary64 (x - c)
                                      / python.to_float (python.int steps)))
                         current);
                  time_sleep (python.to_float timeStep)])
              (range 1 steps)
     ++ [servo_simulator_SetVelocity
           (map (fun _ => 0) (WAM.GetArmIndices self))]).
Proof.
  intros Hsim Hsteps Hts Hget Hfree.
  rewrite (run_ServoTo fw self [x] duration timeStep collisionChecking s
             current steps Hsteps Hget).
  cbn [numpy.subtract]. rewrite Hfree, map_map.
  rewrite run_bind, run_servo_loop; [|exact Hsim|exact Hts|].
  - rewrite run_bind. unfold WAM.Servo at 1.
    rewrite length_map, Nat.eqb_refl, Hsim. simpl. by rewrite ?app_nil_r.
  - rewrite length_map. by apply get_dofs_length in Hget.
Qed.

Lemma ServoTo_broadcasts_single_target_witness :
  outcome (WAM.ServoTo (world [] 2 false) right_arm [1 # 2] (python.int 1)
             (python.float (binary64 (5 # 100))) false home) = Return true /\
  length (velocity_commands
            (events (WAM.ServoTo (world [] 2 false) right_arm [1 # 2]
                       (python.int 1) (python.float (binary64 (5 # 100)))
                       false home))) = 20%nat.
Proof.
  rewrite (ServoTo_broadcasts_single_target (world [] 2 false) right_arm
             (1 # 2) (python.int 1) (python.float (binary64 (5 # 100))) false
             home (at_ 0) 20); [|by vm_compute..].
  split; [reflexivity|]. by vm_compute.
Defined.

(** One second at the default period of 0.05 s: twenty commands, nineteen
    velocities and the final zero. *)
Example ServoTo_one_second :
  outcome (WAM.ServoTo (world [] 2 false) right_arm (at_ 1) (python.int 1)
             (python.float (binary64 (5 # 100))) true home) = Return true /\
  length (velocity_commands
            (events (WAM.ServoTo (world [] 2 false) right_arm (at_ 1)
                       (python.int 1) (python.float (binary64 (5 # 100))) true
                       home))) = 20%nat /\
  last (velocity_commands
          (events (WAM.ServoTo (world [] 2 false) right_arm (at_ 1)
                     (python.int 1) (python.float (binary64 (5 # 100))) true
                     home))) = Some (at_ 0).
Proof. by vm_compute. Qed.

(** Python 2's division at work: a duration of 3 over a period of 2, both
    ints, is one step, and only the zero velocity is sent; as floats it is
    two steps, and one velocity command comes first. *)
Example ServoTo_three_over_two :
  ServoTo_steps (python.int 3) (python.int 2) = Return 1%Z /\
  ServoTo_steps (python.float 3) (python.float 2) = Return 2%Z /\
  velocity_commands
    (events (WAM.ServoTo (world [] 2 false) right_arm (at_ 1) (python.int 3)
               (python.int 2) true home)) = [at_ 0] /\
  velocity_commands
    (events (WAM.ServoTo (world [] 2 false) right_arm (at_ 1) (python.float 3)
               (python.float 2) true home)) = [at_ (1 # 2); at_ 0].
Proof. by vm_compute. Qed.

(** The step count is decided by the double quotient: 0.07 s at a period
    of 0.01 s is eight steps, 0.05 s is five. *)
Example ServoTo_steps_of_doubles :
  ServoTo_steps (python.float (binary64 (7 # 100)))
    (python.float (binary64 (1 # 100))) = Return 8%Z /\
  ServoTo_steps (python.float (binary64 (5 # 100)))
    (python.float (binary64 (1 # 100))) = Return 5%Z /\
  Qceiling (binary64 (5 # 100) / binary64 (1 # 100)) = 6%Z.
Proof. by vm_compute. Qed.

(** ** [GetJointNames]: the names of the arm's joints *)

Lemma append_length (a b : string) :
  String.length (a +:+ b) = (String.length a + String.length b)%nat.
Proof. induction a as [|c a IH]; simpl; [done|]. by rewrite IH. Qed.

Lemma append_inj_r (p a b : string) : p +:+ a = p +:+ b -> a = b.
Proof.
  induction p as [|c p IH]; simpl; [done|]. intros H. injection H as H.
  by apply IH.
Qed.

(** Two strings that end in suffixes of one length agree on the rest. *)
Lemma append_inj_same_length (a c b d : string) :
  String.length b = String.length d -> a +:+ b = c +:+ d -> a = c /\ b = d.
Proof.
  intros Hlen. revert c. induction a as [|x a IH]; intros [|y c] H.
  - done.
  - apply (f_equal String.length) in H.
    rewrite !append_length in H. simpl in H. lia.
  - apply (f_equal String.length) in H.
    rewrite !append_length in H. simpl in H. lia.
  - injection H as -> H. destruct (IH c H) as [-> ->]. done.
Qed.

Lemma GetJointNames_form (self : WAM.WAM) (name : string) :
  name ∈ WAM.GetJointNames self ->
  exists j : string,
    name = (WAM.namespace self +:+ "/") +:+ j /\ String.length j = 2%nat.
Proof.
  intros Hname. unfold WAM.GetJointNames in Hname.
  apply list_elem_of_fmap in Hname as (j & -> & Hj).
  exists j. split; [reflexivity|].
  repeat (apply elem_of_cons in Hj as [->|Hj]; [reflexivity|]).
  by apply elem_of_nil in Hj.
Qed.

(** X10. The arm has seven joint names, each the namespace followed by a
    slash and one of [j1] to [j7], and no two of them are equal, whatever
    the namespace. *)
Theorem GetJointNames_distinct (self : WAM.WAM) :
  length (WAM.GetJointNames self) = 7%nat /\
  NoDup (WAM.GetJointNames self) /\
  (forall name : string,
     name ∈ WAM.GetJointNames self ->
     exists j : string,
       name = (WAM.namespace self +:+ "/") +:+ j /\ String.length j = 2%nat).
Proof.
  split; [reflexivity|]. split; [|apply GetJointNames_form].
  unfold WAM.GetJointNames.
  apply (NoDup_fmap_2_strong (fun j => (WAM.namespace self +:+ "/") +:+ j)).
  - intros x y _ _ H. by apply append_inj_r in H.
  - by apply (bool_decide_unpack _).
Qed.

(** X11. Arms under different namespaces share no joint name. *)
Theorem GetJointNames_disjoint (left right : WAM.WAM) (name : string) :
  WAM.namespace left <> WAM.namespace right ->
  name ∈ WAM.GetJointNames left ->
  name ∉ WAM.GetJointNames right.
Proof.
  intros Hns Hl Hr.
  destruct (GetJointNames_form left name Hl) as (j & -> & Hj).
  destruct (GetJointNames_form right _ Hr) as (j' & Heq & Hj').
  apply append_inj_same_length in Heq as [Heq _]; [|congruence].
  apply append_inj_same_length in Heq as [Heq _]; [|reflexivity].
  by apply Hns.
Qed.

Lemma GetJointNames_disjoint_witness :
  "/right/j3" ∉ WAM.GetJointNames
                  {| WAM.simulated := true;
                     WAM.namespace := "/left";
                     WAM.arm_indices := [11; 12; 13; 14; 15; 16; 17]%nat |}.
Proof.
  apply (GetJointNames_disjoint right_arm
           {| WAM.simulated := true;
              WAM.namespace := "/left";
              WAM.arm_indices := [11; 12; 13; 14; 15; 16; 17]%nat |}).
  - simpl. discriminate.
  - by apply (bool_decide_unpack _).
Defined.

(** ** The BarrettHand: closing direction, opening and closing *)

Lemma closing_direction_fold (fingers : list nat) (gripper : list nat) :
  forall (k : nat) (closing : list Q),
    (k + length gripper <= length closing)%nat ->
    (forall j : nat, (k <= j < length closing)%nat -> closing !! j = Some 0) ->
    let result :=
      fold_left
        (fun closing (entry : nat * nat) =>
           let (i, dof_index) := entry in
           if bool_decide (dof_index ∈ fingers)
           then <[ i := 1 ]> closing
           else closing)
        (zip (seq k (length gripper)) gripper) closing in
    length result = length closing /\
    (forall j : nat, (j < k)%nat -> result !! j = closing !! j) /\
    (forall (i dof_index : nat),
       gripper !! i = Some dof_index ->
       result !! (k + i)%nat
       = Some (if bool_decide (dof_index ∈ fingers) then 1 else 0)).
Proof.
  induction gripper as [|d gripper IH]; intros k closing Hlen Hzero; cbv zeta.
  - simpl. by repeat split.
  - cbn [length seq zip zip_with fold_left].
    set (closing' := if bool_decide (d ∈ fingers)
                     then <[ k := 1 ]> closing else closing).
    assert (length closing' = length closing) as Hlen'.
    { unfold closing'. case_bool_decide; [apply length_insert|done]. }
    assert (forall j, j <> k -> closing' !! j = closing !! j) as Hother.
    { intros j Hj. unfold closing'. case_bool_decide; [|done].
      by apply list_lookup_insert_ne. }
    simpl in Hlen.
    destruct (IH (S k) closing') as (H1 & H2 & H3).
    + rewrite Hlen'. lia.
    + intros j Hj. rewrite Hother by lia. apply Hzero. lia.
    + split; [by rewrite H1|]. split.
      * intros j Hj. rewrite H2 by lia. apply Hother. lia.
      * intros [|i] dof Hi.
        -- simpl in Hi. injection Hi as ->. rewrite Nat.add_0_r.
           rewrite H2 by lia. unfold closing'. case_bool_decide.
           ++ apply list_lookup_insert_eq. lia.
           ++ apply Hzero. lia.
        -- simpl in Hi. replace (k + S i)%nat with (S k + i)%nat by lia.
           by apply H3.
Qed.

Lemma lookup_repeat {A : Type} (x : A) (n i : nat) :
  (i < n)%nat -> repeat x n !! i = Some x.
Proof.
  revert i. induction n as [|n IH]; intros [|i] Hi; simpl; try lia; [done|].
  apply IH. lia.
Qed.

(** X12. The closing direction set up by the hand's constructor has one
    entry per gripper joint: 1 where the joint is one of the three fingers
    and 0 where it is not, so the spread joint is never told to close. *)
Theorem closing_direction_marks_fingers (self : BarrettHand.BarrettHand)
    (gripper_indices : list nat) :
  length (BarrettHand.closing_direction self gripper_indices)
    = length gripper_indices /\
  (forall (i dof_index : nat),
     gripper_indices !! i = Some dof_index ->
     BarrettHand.closing_direction self gripper_indices !! i
     = Some (if bool_decide (dof_index ∈ BarrettHand.GetFingerIndices self)
             then 1 else 0)).
Proof.
  unfold BarrettHand.closing_direction.
  destruct (closing_direction_fold (BarrettHand.GetFingerIndices self)
              gripper_indices 0 (numpy.zeros (length gripper_indices)))
    as (H1 & _ & H3).
  - unfold numpy.zeros. rewrite repeat_length. lia.
  - intros j Hj. unfold numpy.zeros in *. rewrite repeat_length in Hj.
    apply lookup_repeat. lia.
  - split; [|exact H3].
    rewrite H1. unfold numpy.zeros. apply repeat_length.
Qed.

Lemma closing_direction_marks_fingers_witness :
  BarrettHand.closing_direction right_hand (BarrettHand.GetIndices right_hand)
    !! 3%nat = Some 0 /\
  BarrettHand.closing_direction right_hand (BarrettHand.GetIndices right_hand)
    !! 1%nat = Some 1.
Proof.
  destruct (closing_direction_marks_fingers right_hand
              (BarrettHand.GetIndices right_hand)) as [_ H].
  split; [exact (H 3%nat 10%nat eq_refl)|exact (H 1%nat 8%nat eq_refl)].
Defined.

(** X13. On the real hand [OpenHand] and [CloseHand] are [MoveHand] with
    the three fingers at 0 and at 3.2 rad: the fingers are commanded to
    these values, and the spread to the value given or, when none is
    given, to the value it has when the call is made. *)
Theorem OpenHand_CloseHand_on_hardware (tm : BarrettHand.task_manipulation)
    (manipulator : WAM.WAM) (hand : BarrettHand.BarrettHand)
    (spread timeout : option Q) (s : Scene) (c0 c1 c2 c3 : Q) :
  BarrettHand.simulated hand = false ->
  DOFValues s !! BarrettHand.j01 hand = Some c0 ->
  DOFValues s !! BarrettHand.j11 hand = Some c1 ->
  DOFValues s !! BarrettHand.j21 hand = Some c2 ->
  DOFValues s !! BarrettHand.j00 hand = Some c3 ->
  BarrettHand.OpenHand tm manipulator hand spread timeout s
    = (Return tt, s,
       [controller_SetDesired [0; 0; 0; default c3 spread];
        util_WaitForControllers timeout]) /\
  BarrettHand.CloseHand tm manipulator hand spread timeout s
    = (Return tt, s,
       [controller_SetDesired [32 # 10; 32 # 10; 32 # 10; default c3 spread];
        util_WaitForControllers timeout]).
Proof.
  intros Hsim H0 H1 H2 H3.
  unfold BarrettHand.OpenHand, BarrettHand.CloseHand. rewrite Hsim.
  unfold BarrettHand.MoveHand. rewrite !run_bind.
  assert (BarrettHand.GetDOFValues hand s = (Return [c0; c1; c2; c3], s, []))
    as ->.
  { unfold BarrettHand.GetDOFValues, robot_GetDOFValues, BarrettHand.GetIndices,
      BarrettHand.GetFingerIndices, BarrettHand.GetSpreadIndex.
    simpl. by rewrite H0, H1, H2, H3. }
  by destruct spread.
Qed.

Lemma OpenHand_CloseHand_on_hardware_witness :
  BarrettHand.OpenHand grasper right_arm right_hand_hw None (Some 5) home
    = (Return tt, home,
       [controller_SetDesired [0; 0; 0; 3];
        util_WaitForControllers (Some 5)]).
Proof.
  apply (OpenHand_CloseHand_on_hardware grasper right_arm right_hand_hw None
           (Some 5) home 1 (1 # 2) (3 # 2) 3); reflexivity.
Defined.

(** The simulated branch of [OpenHand] and [CloseHand], for any command of
    the grasping module. *)
Lemma run_fingers_in_simulation (manipulator : WAM.WAM) (fingers : M unit)
    (timeout : option Q) (s : Scene) :
  (saver ← CreateRobotStateSaver
     (N.lor SaveParameters.ActiveDOF SaveParameters.ActiveManipulator);
   with_ (Restore saver) (WAM.SetActive manipulator ;; fingers) ;;
   emit (util_WaitForControllers timeout)) s
  = match fingers (final_scene (WAM.SetActive manipulator s)) with
    | (r, s', ev) =>
        (r,
         {| DOFValues := DOFValues s';
            ActiveDOFIndices := ActiveDOFIndices s;
            ActiveManipulator := ActiveManipulator s;
            DisabledBodies := DisabledBodies s';
            ft_wrench := ft_wrench s' |},
         ev ++ match r with
               | Return _ => [util_WaitForControllers timeout]
               | Raise _ => []
               end)
    end.
Proof.
  rewrite run_bind. unfold CreateRobotStateSaver at 1.
  rewrite run_bind. unfold with_. rewrite run_bind.
  unfold WAM.SetActive at 1, modify at 1, final_scene. cbn [fst snd].
  destruct (fingers _) as [[[[]|e] s'] ev]; [reflexivity|].
  rewrite app_nil_r. reflexivity.
Qed.

(** X14. In simulation [OpenHand] and [CloseHand] hand the fingers to the
    grasping module with the arm active, and leave the robot's active
    manipulator and active joints as they found them whatever that module
    does; the joint values are the ones the module leaves.  They wait for
    the controller only if the module returned, and the [spread] argument
    plays no part. *)
Theorem OpenHand_CloseHand_in_simulation (tm : BarrettHand.task_manipulation)
    (manipulator : WAM.WAM) (hand : BarrettHand.BarrettHand)
    (spread timeout : option Q) (s : Scene) :
  BarrettHand.simulated hand = true ->
  (ActiveDOFIndices
     (final_scene (BarrettHand.OpenHand tm manipulator hand spread timeout s))
     = ActiveDOFIndices s /\
   ActiveManipulator
     (final_scene (BarrettHand.OpenHand tm manipulator hand spread timeout s))
     = ActiveManipulator s /\
   DOFValues
     (final_scene (BarrettHand.OpenHand tm manipulator hand spread timeout s))
     = DOFValues
         (final_scene (BarrettHand.ReleaseFingers tm
                         (final_scene (WAM.SetActive manipulator s)))) /\
   events (BarrettHand.OpenHand tm manipulator hand spread timeout s)
     = events (BarrettHand.ReleaseFingers tm
                 (final_scene (WAM.SetActive manipulator s)))
       ++ match outcome (BarrettHand.ReleaseFingers tm
                           (final_scene (WAM.SetActive manipulator s))) with
          | Return _ => [util_WaitForControllers timeout]
          | Raise _ => []
          end /\
   BarrettHand.OpenHand tm manipulator hand spread timeout s
     = BarrettHand.OpenHand tm manipulator hand None timeout s) /\
  (ActiveDOFIndices
     (final_scene (BarrettHand.CloseHand tm manipulator hand spread timeout s))
     = ActiveDOFIndices s /\
   ActiveManipulator
     (final_scene (BarrettHand.CloseHand tm manipulator hand spread timeout s))
     = ActiveManipulator s /\
   DOFValues
     (final_scene (BarrettHand.CloseHand tm manipulator hand spread timeout s))
     = DOFValues
         (final_scene (BarrettHand.CloseFingers tm
                         (final_scene (WAM.SetActive manipulator s)))) /\
   events (BarrettHand.CloseHand tm manipulator hand spread timeout s)
     = events (BarrettHand.CloseFingers tm
                 (final_scene (WAM.SetActive manipulator s)))
       ++ match outcome (BarrettHand.CloseFingers tm
                           (final_scene (WAM.SetActive manipulator s))) with
          | Return _ => [util_WaitForControllers timeout]
          | Raise _ => []
          end /\
   BarrettHand.CloseHand tm manipulator hand spread timeout s
     = BarrettHand.CloseHand tm manipulator hand None timeout s).
Proof.
  intros Hsim. unfold BarrettHand.OpenHand, BarrettHand.CloseHand.
  rewrite Hsim, !run_fingers_in_simulation.
  split.
  - by destruct (BarrettHand.ReleaseFingers tm _) as [[r s'] ev].
  - by destruct (BarrettHand.CloseFingers tm _) as [[r s'] ev].
Qed.

Lemma OpenHand_CloseHand_in_simulation_witness :
  ActiveManipulator
    (final_scene (BarrettHand.ReleaseFingers grasper
                    (final_scene (WAM.SetActive right_arm home)))) = "/head" /\
  ActiveManipulator
    (final_scene (BarrettHand.OpenHand grasper right_arm right_hand (Some 1)
                    None home)) = ActiveManipulator home /\
  DOFValues
    (final_scene (BarrettHand.OpenHand grasper right_arm right_hand (Some 1)
                    None home)) = [0; 0; 0; 0; 0; 0; 0; 0; 0; 0; 3].
Proof.
  destruct (OpenHand_CloseHand_in_simulation grasper right_arm right_hand
              (Some 1) None home eq_refl) as [(_ & Hm & Hd & _) _].
  split; [reflexivity|]. split; [exact Hm|]. rewrite Hd. reflexivity.
Defined.

(** ** [herb.initialize]: default flags and the viewer *)

Lemma set_defaults_lookup {V : Type} (keys : list string) (sim : V) :
  forall (kw_args : gmap string V) (k : string),
    herb.set_defaults keys sim kw_args !! k
    = match kw_args !! k with
      | Some v => Some v
      | None => if bool_decide (k ∈ keys) then Some sim else None
      end.
Proof.
  unfold herb.set_defaults.
  induction keys as [|key keys IH]; intros kw k; cbn [fold_left].
  - by destruct (kw !! k).
  - rewrite IH. destruct (kw !! key) as [u|] eqn:Hkey.
    + destruct (kw !! k) as [v|] eqn:Hk; [done|].
      assert (k <> key) as Hne by (intros ->; congruence).
      repeat case_bool_decide; try done.
      * exfalso. apply H0. by right.
      * exfalso. apply elem_of_cons in H0 as [?|?]; done.
    + destruct (decide (k = key)) as [->|Hne].
      * rewrite lookup_insert_eq, Hkey.
        case_bool_decide as H; [done|]. exfalso. apply H. by left.
      * rewrite lookup_insert_ne by done.
        destruct (kw !! k) as [v|]; [done|].
        repeat case_bool_decide; try done.
        -- exfalso. apply H0. by right.
        -- exfalso. apply elem_of_cons in H0 as [?|?]; done.
Qed.

(** X15. After [initialize] has filled in its defaults, each of the ten
    simulation flags is set: a flag the caller passed keeps the caller's
    value, a flag the caller left out is [sim], and every other keyword
    argument is passed on untouched. *)
Theorem default_kw_args_fills_missing {V : Type} (sim : V)
    (kw_args : gmap string V) (k : string) :
  (forall v : V, kw_args !! k = Some v ->
     herb.default_kw_args sim kw_args !! k = Some v) /\
  (k ∈ herb.keys -> kw_args !! k = None ->
     herb.default_kw_args sim kw_args !! k = Some sim) /\
  (k ∉ herb.keys ->
     herb.default_kw_args sim kw_args !! k = kw_args !! k) /\
  (k ∈ herb.keys -> is_Some (herb.default_kw_args sim kw_args !! k)).
Proof.
  unfold herb.default_kw_args. rewrite set_defaults_lookup.
  repeat split.
  - by intros v ->.
  - intros Hk ->. by rewrite bool_decide_eq_true_2.
  - intros Hk. destruct (kw_args !! k); [done|].
    by rewrite bool_decide_eq_false_2.
  - intros Hk. destruct (kw_args !! k); [by eexists|].
    rewrite bool_decide_eq_true_2 by done. by eexists.
Qed.

Lemma default_kw_args_fills_missing_witness :
  herb.default_kw_args true {[ "head_sim" := false ]} !! "head_sim"
    = Some false /\
  herb.default_kw_args true {[ "head_sim" := false ]} !! "segway_sim"
    = Some true /\
  herb.default_kw_args true ({[ "head_sim" := false ]} : gmap string bool)
    !! "viewer" = None.
Proof.
  destruct (default_kw_args_fills_missing true
              ({[ "head_sim" := false ]} : gmap string bool) "head_sim")
    as (H1 & _).
  destruct (default_kw_args_fills_missing true
              ({[ "head_sim" := false ]} : gmap string bool) "segway_sim")
    as (_ & H2 & _).
  destruct (default_kw_args_fills_missing true
              ({[ "head_sim" := false ]} : gmap string bool) "viewer")
    as (_ & _ & H3 & _).
  split; [apply H1; reflexivity|]. split.
  - apply H2; [by apply (bool_decide_unpack _)|reflexivity].
  - rewrite H3; [reflexivity|by apply (bool_decide_unpack _)].
Defined.

(** X16. The viewer step of [initialize], for any behaviour of the
    environment.  A false or empty [attach_viewer] leaves the environment
    alone.  Whenever a viewer was asked for and the step returns, the
    environment has a viewer.  For [True] the RViz viewer is tried first;
    only if the environment then has no viewer is a warning logged and
    qtcoin tried, on top of the failed attempt, and the step raises exactly
    when that fails too.  A viewer asked for by name is not created when
    the environment already has one. *)
Theorem attach_viewer_falls_back {Env Viewer : Type}
    (SetViewer : string -> Env -> Env) (GetViewer : Env -> option Viewer)
    (attach_viewer : herb.viewer_arg) (env : Env) :
  (herb.truthy attach_viewer = false ->
     herb.attach SetViewer GetViewer attach_viewer env = (inr tt, env, [])) /\
  (herb.truthy attach_viewer = true ->
     fst (fst (herb.attach SetViewer GetViewer attach_viewer env)) = inr tt ->
     is_Some (GetViewer
                (snd (fst (herb.attach SetViewer GetViewer attach_viewer env))))) /\
  (attach_viewer = herb.as_bool true ->
     is_Some (GetViewer (SetViewer "rviz" env)) ->
     herb.attach SetViewer GetViewer attach_viewer env
       = (inr tt, SetViewer "rviz" env, [])) /\
  (attach_viewer = herb.as_bool true ->
     GetViewer (SetViewer "rviz" env) = None ->
     snd (fst (herb.attach SetViewer GetViewer attach_viewer env))
       = SetViewer "qtcoin" (SetViewer "rviz" env) /\
     length (snd (herb.attach SetViewer GetViewer attach_viewer env)) = 1%nat /\
     (fst (fst (herb.attach SetViewer GetViewer attach_viewer env))
        = inl (Exception "Failed creating viewer of type {0:s}.")
      <-> GetViewer (SetViewer "qtcoin" (SetViewer "rviz" env)) = None)) /\
  (forall name : string,
     attach_viewer = herb.as_str name ->
     is_Some (GetViewer env) ->
     herb.attach SetViewer GetViewer attach_viewer env = (inr tt, env, [])).
Proof.
  unfold herb.attach. repeat split.
  - intros Hf. destruct attach_viewer as [[|]|name]; simpl in *;
      try discriminate; [reflexivity|by rewrite Hf].
  - intros Ht. destruct attach_viewer as [[|]|name]; simpl in *;
      try discriminate.
    + destruct (GetViewer (SetViewer "rviz" env)) eqn:E1; simpl.
      * rewrite E1. simpl. by rewrite E1.
      * rewrite E1.
        destruct (GetViewer (SetViewer "qtcoin" (SetViewer "rviz" env))) eqn:E2;
          simpl; [by rewrite E2|discriminate].
    + rewrite Ht. destruct (GetViewer env) eqn:E1; simpl; [by rewrite E1|].
      destruct (GetViewer (SetViewer name env)) eqn:E2; simpl;
        [by rewrite E2|discriminate].
  - intros -> [v Hv]. simpl. rewrite Hv. simpl. by rewrite Hv.
  - simpl. subst. simpl. rewrite H0. simpl. rewrite H0.
    by destruct (GetViewer (SetViewer "qtcoin" (SetViewer "rviz" env))).
  - simpl. subst. simpl. rewrite H0. simpl. rewrite H0.
    by destruct (GetViewer (SetViewer "qtcoin" (SetViewer "rviz" env))).
  - subst. simpl. rewrite H0. simpl. rewrite H0.
    by destruct (GetViewer (SetViewer "qtcoin" (SetViewer "rviz" env))).
  - subst. simpl. rewrite H0. simpl. rewrite H0.
    intros E. by rewrite E.
  - intros name -> [v Hv]. simpl. destruct (negb _); [|reflexivity].
    by rewrite Hv.
Qed.

(** An environment, its viewer if any, where RViz cannot be loaded. *)
Lemma attach_viewer_falls_back_witness :
  herb.attach
    (fun (name : string) (_ : option string) =>
       if String.eqb name "qtcoin" then Some name else None)
    (fun env : option string => env) (herb.as_bool true) None
  = (inr tt, Some "qtcoin",
     ["Loading the RViz viewer failed. Do you have or_interactive marker installed? Falling back on qtcoin."]).
Proof.
  pose proof (attach_viewer_falls_back
                (fun (name : string) (_ : option string) =>
                   if String.eqb name "qtcoin" then Some name else None)
                (fun env : option string => env) (herb.as_bool true) None)
    as (_ & _ & _ & H & _).
  destruct (H eq_refl eq_refl) as (_ & _ & _). reflexivity.
Defined.

(** ** [HERBRobot]: executing a trajectory, acceleration limits *)

Section ExecuteTrajectoryFacts.

Context {Robot Manipulator Traj Value : Type}.
Variable GetTrajectoryManipulators : Traj -> Robot -> list Manipulator.
Variable ClearTrajectoryStatus : Manipulator -> Robot -> (exn + unit) * Robot.
Variable GetTrajectoryStatus : Manipulator -> Robot -> (exn + string) * Robot.
Variable super_ExecuteTrajectory : Traj -> Robot -> (exn + Value) * Robot.

(** What the two methods of a manipulator do when they do not raise. *)
Variable clear : Manipulator -> Robot -> Robot.
Variable status : Manipulator -> Robot -> string.
Hypothesis clears : forall m r, ClearTrajectoryStatus m r = (inr tt, clear m r).
Hypothesis reads : forall m r, GetTrajectoryStatus m r = (inr (status m r), r).

Lemma run_clear_all (active : list Manipulator) :
  forall robot : Robot,
    HERBRobot.clear_all ClearTrajectoryStatus active robot
    = (inr tt, fold_left (fun r m => clear m r) active robot).
Proof.
  induction active as [|m active IH]; intros robot; simpl; [done|].
  by rewrite clears, IH.
Qed.

Lemma run_check_all (active : list Manipulator) (robot : Robot) :
  HERBRobot.check_all GetTrajectoryStatus active robot
  = (if existsb (fun m => String.eqb (status m robot) "aborted") active
     then inl TrajectoryAborted else inr tt, robot).
Proof.
  induction active as [|m active IH]; simpl; [done|].
  rewrite reads. by destruct (String.eqb (status m robot) "aborted").
Qed.

(** X17. [ExecuteTrajectory], for manipulators whose status methods do
    not raise: every manipulator of the trajectory has its status cleared
    before the base class executes; an exception of the execution is passed
    on without reading any status; otherwise the statuses are read on the
    robot as the execution left it, and the call raises [TrajectoryAborted]
    exactly when some manipulator of the trajectory reports [aborted], and
    returns the value of the base class when none does.  The robot is left
    as the execution left it in either case. *)
Theorem ExecuteTrajectory_checks_after_executing (traj : Traj) (robot : Robot) :
  HERBRobot.ExecuteTrajectory GetTrajectoryManipulators ClearTrajectoryStatus
    GetTrajectoryStatus super_ExecuteTrajectory traj robot
  = match super_ExecuteTrajectory traj
            (fold_left (fun r m => clear m r)
                       (GetTrajectoryManipulators traj robot) robot) with
    | (inl e, robot') => (inl e, robot')
    | (inr value, robot') =>
        (if existsb (fun m => String.eqb (status m robot') "aborted")
                    (GetTrajectoryManipulators traj robot)
         then inl TrajectoryAborted
         else inr value,
         robot')
    end.
Proof.
  unfold HERBRobot.ExecuteTrajectory. rewrite run_clear_all.
  destruct (super_ExecuteTrajectory traj _) as [[e|value] robot']; [done|].
  rewrite run_check_all. by destruct (existsb _ _).
Qed.

End ExecuteTrajectoryFacts.

(** A robot as the status of each of its manipulators; executing a
    trajectory finishes every arm it names except the right one, which
    aborts. *)
Lemma ExecuteTrajectory_checks_after_executing_witness :
  HERBRobot.ExecuteTrajectory
    (fun (traj : list string) (_ : gmap string string) => traj)
    (fun m r => (inr tt, <[ m := "" ]> r))
    (fun m r => (inr (default "" (r !! m)), r))
    (fun (traj : list string) r =>
       (inr 7%nat,
        fold_left (fun r m => <[ m := if String.eqb m "right"
                                      then "aborted" else "done" ]> r) traj r))
    ["left"; "right"] ({[ "left" := "aborted" ]} : gmap string string)
  = (inl TrajectoryAborted,
     {[ "left" := "done"; "right" := "aborted" ]}) /\
  HERBRobot.ExecuteTrajectory
    (fun (traj : list string) (_ : gmap string string) => traj)
    (fun m r => (inr tt, <[ m := "" ]> r))
    (fun m r => (inr (default "" (r !! m)), r))
    (fun (traj : list string) r =>
       (inr 7%nat,
        fold_left (fun r m => <[ m := if String.eqb m "right"
                                      then "aborted" else "done" ]> r) traj r))
    ["left"] ({[ "left" := "aborted" ]} : gmap string string)
  = (inr 7%nat, {[ "left" := "done" ]}).
Proof.
  split.
  - rewrite (ExecuteTrajectory_checks_after_executing
               (fun (traj : list string) (_ : gmap string string) => traj)
               (fun m r => (inr tt, <[ m := "" ]> r))
               (fun m r => (inr (default "" (r !! m)), r))
               (fun (traj : list string) r =>
                  (inr 7%nat,
                   fold_left (fun r m => <[ m := if String.eqb m "right"
                                                 then "aborted" else "done" ]> r)
                             traj r))
               (fun m r => <[ m := "" ]> r)
               (fun m r => default "" (r !! m))
               (fun _ _ => eq_refl) (fun _ _ => eq_refl)).
    by vm_compute.
  - rewrite (ExecuteTrajectory_checks_after_executing
               (fun (traj : list string) (_ : gmap string string) => traj)
               (fun m r => (inr tt, <[ m := "" ]> r))
               (fun m r => (inr (default "" (r !! m)), r))
               (fun (traj : list string) r =>
                  (inr 7%nat,
                   fold_left (fun r m => <[ m := if String.eqb m "right"
                                                 then "aborted" else "done" ]> r)
                             traj r))
               (fun m r => <[ m := "" ]> r)
               (fun m r => default "" (r !! m))
               (fun _ _ => eq_refl) (fun _ _ => eq_refl)).
    by vm_compute.
Defined.

Lemma set_dofs_total (indices : list nat) :
  forall (values dofs : list Q),
    length values = length indices ->
    Forall (fun j => (j < length dofs)%nat) indices ->
    is_Some (set_dofs indices values dofs).
Proof.
  induction indices as [|i indices IH]; intros [|v values] dofs Hlen Hin;
    simpl in *; try discriminate; [by eexists|].
  apply Forall_cons in Hin as [Hi Hin].
  apply Nat.ltb_lt in Hi. rewrite Hi. apply IH; [lia|].
  by rewrite length_insert.
Qed.

Lemma set_dofs_constant (v : Q) (indices : list nat) :
  forall (dofs dofs' : list Q) (j : nat),
    set_dofs indices (repeat v (length indices)) dofs = Some dofs' ->
    j ∈ indices -> dofs' !! j = Some v.
Proof.
  induction indices as [|i indices IH]; intros dofs dofs' j H Hj.
  - by apply elem_of_nil in Hj.
  - simpl in H. destruct (Nat.ltb i (length dofs)) eqn:Hi; [|discriminate].
    destruct (decide (j ∈ indices)) as [Hin|Hout]; [by eapply IH|].
    apply elem_of_cons in Hj as [->|Hj]; [|done].
    rewrite (set_dofs_outside _ _ _ _ i H Hout).
    apply list_lookup_insert_eq. by apply Nat.ltb_lt.
Qed.

(** X18. The acceleration limits the robot's constructor installs: when
    every joint index of the head and the two arms is a joint of the robot
    the update succeeds, keeps the number of limits, sets the limit of each
    of those joints to 2.0, and leaves the limit of every other joint, the
    hands' included, as the model had it. *)
Theorem acceleration_limits_of_arms_and_head (head left_arm right_arm : list nat)
    (accel_limits : list Q) :
  Forall (fun j => (j < length accel_limits)%nat)
         (head ++ left_arm ++ right_arm) ->
  exists limits : list Q,
    HERBRobot.acceleration_limits head left_arm right_arm accel_limits
      = Return limits /\
    length limits = length accel_limits /\
    (forall j : nat, j ∈ head ++ left_arm ++ right_arm ->
       limits !! j = Some 2) /\
    (forall j : nat, j ∉ head ++ left_arm ++ right_arm ->
       limits !! j = accel_limits !! j).
Proof.
  intros Hin. apply Forall_app in Hin as [Hh Hin].
  apply Forall_app in Hin as [Hl Hr].
  unfold HERBRobot.acceleration_limits, numpy_setitem.
  destruct (set_dofs_total head (repeat 2 (length head)) accel_limits)
    as [a1 E1]; [apply repeat_length|exact Hh|].
  rewrite E1. pose proof (set_dofs_length _ _ _ _ E1) as L1.
  destruct (set_dofs_total left_arm (repeat 2 (length left_arm)) a1)
    as [a2 E2]; [apply repeat_length|by rewrite L1|].
  rewrite E2. pose proof (set_dofs_length _ _ _ _ E2) as L2.
  destruct (set_dofs_total right_arm (repeat 2 (length right_arm)) a2)
    as [a3 E3]; [apply repeat_length|by rewrite L2, L1|].
  rewrite E3. pose proof (set_dofs_length _ _ _ _ E3) as L3.
  exists a3. split; [reflexivity|]. split; [congruence|]. split.
  - intros j Hj.
    destruct (decide (j ∈ right_arm)) as [?|Hnr];
      [by apply (set_dofs_constant 2 right_arm a2 a3)|].
    rewrite (set_dofs_outside _ _ _ _ j E3 Hnr).
    destruct (decide (j ∈ left_arm)) as [?|Hnl];
      [by apply (set_dofs_constant 2 left_arm a1 a2)|].
    rewrite (set_dofs_outside _ _ _ _ j E2 Hnl).
    apply (set_dofs_constant 2 head accel_limits a1); [exact E1|].
    rewrite !elem_of_app in Hj. tauto.
  - intros j Hj. rewrite !elem_of_app in Hj.
    rewrite (set_dofs_outside _ _ _ _ j E3) by tauto.
    rewrite (set_dofs_outside _ _ _ _ j E2) by tauto.
    apply (set_dofs_outside _ _ _ _ j E1). tauto.
Qed.

Lemma acceleration_limits_of_arms_and_head_witness :
  exists limits : list Q,
    HERBRobot.acceleration_limits [4; 5]%nat [0; 1]%nat [2; 3]%nat
      [1; 1; 1; 1; 1; 1; 7; 7]
      = Return limits /\
    length limits = 8%nat /\
    (forall j : nat, j ∈ [4; 5; 0; 1; 2; 3]%nat -> limits !! j = Some 2) /\
    (forall j : nat, j ∉ [4; 5; 0; 1; 2; 3]%nat ->
       limits !! j = [1; 1; 1; 1; 1; 1; 7; 7] !! j).
Proof.
  apply (acceleration_limits_of_arms_and_head [4; 5]%nat [0; 1]%nat [2; 3]%nat
           [1; 1; 1; 1; 1; 1; 7; 7]).
  repeat constructor.
Defined.

(** ** [MoveUntilTouch] and the ignored bodies; short servo moves *)

(** X19. The bodies of [ignore_collisions] are ignored by the planner
    only.  They are enabled again before the forward simulation, so two
    calls that differ in [ignore_collisions] alone and get the same answer
    from the planner behave alike in every respect: a collision with an
    ignored body halts the motion like any other. *)
Theorem ignore_collisions_only_for_planning (dt : Q) (fw : Framework)
    (manipulator : WAM.WAM) (direction : list Q) (distance : Q)
    (max_distance : option Q) (max_force : Q) (max_torque : option (list Q))
    (ignored ignored' : option (list string)) (s : Scene) :
  PlanToEndEffectorOffset fw
    (planning_scene manipulator (default [] ignored) s)
    direction distance (default 1 max_distance)
  = PlanToEndEffectorOffset fw
      (planning_scene manipulator (default [] ignored') s)
      direction distance (default 1 max_distance) ->
  WAM.MoveUntilTouch_dt dt fw manipulator direction distance max_distance
    max_force max_torque ignored s
  = WAM.MoveUntilTouch_dt dt fw manipulator direction distance max_distance
      max_force max_torque ignored' s.
Proof.
  intros Hplan. rewrite !run_MoveUntilTouch_cases. by rewrite Hplan.
Qed.

Lemma ignore_collisions_only_for_planning_witness :
  WAM.MoveUntilTouch (world ten_waypoints (4 # 100) false) right_arm [1; 0; 0]
    (1 # 2) (Some 1) 5 None (Some ["wall"]) home
  = WAM.MoveUntilTouch (world ten_waypoints (4 # 100) false) right_arm [1; 0; 0]
      (1 # 2) (Some 1) 5 None None home.
Proof.
  apply (ignore_collisions_only_for_planning WAM.delta_t
           (world ten_waypoints (4 # 100) false) right_arm [1; 0; 0] (1 # 2)
           (Some 1) 5 None (Some ["wall"]) None home).
  reflexivity.
Defined.

Lemma range_empty (lo hi : Z) : (hi <= lo)%Z -> range lo hi = [].
Proof.
  intros H. unfold range. replace (Z.to_nat (hi - lo)) with 0%nat by lia.
  reflexivity.
Qed.

(** X20. A servo move no longer than one control period does not move
    the arm: with [ceil(duration / timeStep) <= 1] in exact arithmetic the
    steps of the code are at most 1 as well, the loop of velocity commands
    is empty, and in simulation the one command [ServoTo] sends is the zero
    velocity, after which it returns [True]. *)
Theorem ServoTo_short_move_only_stops (fw : Framework) (self : WAM.WAM)
    (target : list Q) (duration timeStep : python.number)
    (collisionChecking : bool) (s : Scene) (current : list Q) :
  WAM.simulated self = true ->
  Qeq_bool (python.to_float timeStep) 0 = false ->
  (Qceiling (exact_quotient duration timeStep) <= 1)%Z ->
  get_dofs (WAM.GetArmIndices self) (DOFValues s) = Some current ->
  length target = length current ->
  (if collisionChecking then CollisionCheck fw s target else false) = false ->
  WAM.ServoTo fw self target duration timeStep collisionChecking s
  = (Return true, s,
     [servo_simulator_SetVelocity (map (fun _ => 0) (WAM.GetArmIndices self))]).
Proof.
  intros Hsim Hts Hshort Hget Hlen Hfree.
  destruct (ServoTo_steps_defined duration timeStep Hts) as [steps Hsteps].
  pose proof (ServoTo_steps_short duration timeStep steps Hsteps Hshort)
    as Hsteps1.
  rewrite (run_ServoTo fw self target duration timeStep collisionChecking s
             current steps Hsteps Hget).
  destruct (subtract_same_length target current Hlen) as (v & -> & Hvlen).
  rewrite Hfree, (range_empty 1 _ Hsteps1).
  rewrite run_bind. cbn [for_each]. unfold ret at 1.
  rewrite run_bind. unfold WAM.Servo at 1.
  by rewrite length_map, Nat.eqb_refl, Hsim.
Qed.

Lemma ServoTo_short_move_only_stops_witness :
  WAM.ServoTo (world [] 2 false) right_arm (at_ 1)
    (python.float (binary64 (4 # 100))) (python.float (binary64 (5 # 100)))
    true home
  = (Return true, home, [servo_simulator_SetVelocity (at_ 0)]).
Proof.
  apply (ServoTo_short_move_only_stops (world [] 2 false) right_arm (at_ 1)
           (python.float (binary64 (4 # 100)))
           (python.float (binary64 (5 # 100))) true home (at_ 0));
    by vm_compute.
Defined.
